(** * DLHub SDK client: the publication and invocation paths

    A shallow embedding of [dlhub_sdk/client.py] (class [DLHubClient]):
    [run], [publish_servable], [publish_repository], [get_task_status] and
    the content stager [_stage_data].

    Python values are a small inductive type, exceptions are an inductive
    type with one constructor per class the code raises or catches, and the
    effects (local files, standard output, object storage, HTTP, the schema
    validator) are threaded through a state-and-exception monad whose state
    holds the local file system and the ordered trace of external calls. *)

From Stdlib Require Import ZArith NArith Ascii String List Bool Lia.
From stdpp Require Import base gmap strings list.

Local Open Scope string_scope.
Set Warnings "-register-all".

(** ** Python values *)

(** The JSON-like fragment of Python objects that travels through the
    client: [None], booleans, integers, strings, lists and dictionaries
    with string keys (insertion-ordered, as Python's are). *)
Inductive value : Type :=
| VNone
| VBool (b : bool)
| VInt (z : Z)
| VStr (s : string)
| VList (items : list value)
| VDict (items : list (string * value)).

(** The response object handed back by [BaseClient.get]/[BaseClient.post]:
    the fields the client reads, and [repr], what [str(r)] prints. *)
Record response : Type := {
  http_status : Z;
  data : value;
  repr : string
}.

(** ** Exceptions *)

(** One constructor per exception class the client raises, catches or
    provokes itself; [Failure] stands for an instance of any other class
    derived from [Exception] (with its class name and its [str]), and
    [Signal] for the classes that derive from [BaseException] only
    ([KeyboardInterrupt], [SystemExit], [GeneratorExit]). *)
Inductive exn : Type :=
| NoCredentialsError
| FileNotFoundError (filename : string)
| NotImplementedError (message : string)
| ValueError (message : string)
| KeyError (key : string)
| TypeError (message : string)
| Exception_ (arg : response)
| Failure (cls message : string)
| Signal (cls : string).

(** [isinstance(e, Exception)] *)
Definition is_Exception (e : exn) : bool :=
  match e with
  | Signal _ => false
  | _ => true
  end.

(** [isinstance(e, botocore.exceptions.NoCredentialsError)] *)
Definition is_NoCredentialsError (e : exn) : bool :=
  match e with
  | NoCredentialsError => true
  | _ => false
  end.

(** [str(e)], as ["{}".format(e)] renders it. *)
Definition exn_str (e : exn) : string :=
  match e with
  | NoCredentialsError => "Unable to locate credentials"
  | FileNotFoundError f => "[Errno 2] No such file or directory: '" ++ f ++ "'"
  | NotImplementedError m => m
  | ValueError m => m
  | KeyError k => "'" ++ k ++ "'"
  | TypeError m => m
  | Exception_ r => repr r
  | Failure _ m => m
  | Signal _ => ""
  end.

(** ** The world: local files and the trace of external calls *)

Inductive event : Type :=
| Printed (line : string)
    (* print(line) *)
| PutObject (bucket key acl : string) (body : list Byte.byte)
    (* s3.Object(bucket, key).put(ACL=acl, Body=body) *)
| Validated (metadata : value) (schema : string)
    (* validate_against_dlhub_schema(metadata, schema) *)
| Got (path : string)
    (* self.get(path) *)
| Posted (path : string) (json_body : value).
    (* self.post(path, json_body=json_body) *)

Record world : Type := {
  files : gmap string (list Byte.byte);
  trace : list event
}.

Definition log (ev : event) (w : world) : world :=
  {| files := files w; trace := trace w ++ [ev] |}.

Definition with_files (fs : gmap string (list Byte.byte)) (w : world) : world :=
  {| files := fs; trace := trace w |}.

(** ** A state-and-exception monad for Python control flow *)

Inductive outcome (A : Type) : Type :=
| Return (a : A)
| Raise (e : exn).
Arguments Return {A} a.
Arguments Raise {A} e.

Definition py (A : Type) : Type := world -> world * outcome A.

Definition ret {A} (a : A) : py A := fun w => (w, Return a).

Definition raise {A} (e : exn) : py A := fun w => (w, Raise e).

Definition bind {A B} (m : py A) (k : A -> py B) : py B :=
  fun w =>
    match m w with
    | (w', Return a) => k a w'
    | (w', Raise e) => (w', Raise e)
    end.

Notation "'let*' x ':=' m 'in' k" := (bind m (fun x => k))
  (at level 10, x pattern, m at level 200, k at level 200).
Notation "m ';;' k" := (bind m (fun _ => k))
  (at level 100, k at level 200, right associativity).

(** [try: body / except ... : handler e]; a handler that does not match
    re-raises. *)
Definition try_except {A} (body : py A) (handler : exn -> py A) : py A :=
  fun w =>
    match body w with
    | (w', Return a) => (w', Return a)
    | (w', Raise e) => handler e w'
    end.

(** [try: body / finally: cleanup].  The clean-up runs whatever the body
    did; when the clean-up itself raises, its exception replaces the body's
    result or exception. *)
Definition try_finally {A} (body : py A) (cleanup : py unit) : py A :=
  fun w =>
    match body w with
    | (w1, r) =>
        match cleanup w1 with
        | (w2, Return _) => (w2, r)
        | (w2, Raise e) => (w2, Raise e)
        end
    end.

Definition of_outcome {A} (o : outcome A) : py A := fun w => (w, o).

(** [print(line)] *)
Definition print (line : string) : py unit :=
  fun w => (log (Printed line) w, Return tt).

(** ** Strings and paths *)

(** [s.split(sep)] for a one-character separator: never empty. *)
Fixpoint split (sep : ascii) (s : string) : list string :=
  match s with
  | EmptyString => [EmptyString]
  | String c rest =>
      if Ascii.eqb c sep then EmptyString :: split sep rest
      else
        match split sep rest with
        | [] => [String c EmptyString]
        | piece :: pieces => String c piece :: pieces
        end
  end.

(** [b.startswith('/')] *)
Definition startswith_sep (b : string) : bool :=
  match b with
  | String c _ => Ascii.eqb c "/"
  | EmptyString => false
  end.

(** [path.endswith('/')] *)
Fixpoint endswith_sep (path : string) : bool :=
  match path with
  | EmptyString => false
  | String c EmptyString => Ascii.eqb c "/"
  | String _ rest => endswith_sep rest
  end.

(** One turn of the loop of [posixpath.join]: an absolute component
    restarts the path, otherwise components are glued with one ['/']. *)
Definition join_step (path b : string) : string :=
  if startswith_sep b then b
  else if String.eqb path "" || endswith_sep path then path ++ b
  else path ++ "/" ++ b.

(** [os.path.join(a, *p)] on a POSIX system *)
Definition os_path_join (a : string) (p : list string) : string :=
  fold_left join_step p a.

(** ** UUIDs *)

Definition hex_digit (d : N) : ascii :=
  match d with
  | 0 => "0" | 1 => "1" | 2 => "2" | 3 => "3"
  | 4 => "4" | 5 => "5" | 6 => "6" | 7 => "7"
  | 8 => "8" | 9 => "9" | 10 => "a" | 11 => "b"
  | 12 => "c" | 13 => "d" | 14 => "e" | _ => "f"
  end%N%char.

(** The [width] low hexadecimal digits of [n] in front of [acc]:
    ['%032x' % n] is [hex_digits 32 n ""] for a 128-bit [n]. *)
Fixpoint hex_digits (width : nat) (n : N) (acc : string) : string :=
  match width with
  | O => acc
  | S k => hex_digits k (n / 16)%N (String (hex_digit (n mod 16)%N) acc)
  end.

(** [str(uuid.UUID(int=n))]: the 8-4-4-4-12 grouping of the 32 digits. *)
Definition str_uuid (n : N) : string :=
  let hex := hex_digits 32 n "" in
  substring 0 8 hex ++ "-" ++ substring 8 4 hex ++ "-" ++
  substring 12 4 hex ++ "-" ++ substring 16 4 hex ++ "-" ++ substring 20 12 hex.

(** ** Base64, as [codecs.encode(b, 'base64')] produces it *)

Definition b64_alphabet : string :=
  "ABCDEFGHIJKLMNOPQRSTUVWXYZabcdefghijklmnopqrstuvwxyz0123456789+/".

Definition b64_char (n : N) : ascii :=
  match String.get (N.to_nat n) b64_alphabet with
  | Some c => c
  | None => "="%char
  end.

(** The 4-character groups of [binascii.b2a_base64], without its newline. *)
Fixpoint b64_groups (bs : list Byte.byte) : string :=
  match bs with
  | [] => ""
  | [a] =>
      let x := Byte.to_N a in
      String (b64_char (x / 4)) (String (b64_char ((x mod 4) * 16)) "==")
  | [a; b] =>
      let x := Byte.to_N a in
      let y := Byte.to_N b in
      String (b64_char (x / 4))
        (String (b64_char ((x mod 4) * 16 + y / 16))
           (String (b64_char ((y mod 16) * 4)) "="))
  | a :: b :: c :: rest =>
      let x := Byte.to_N a in
      let y := Byte.to_N b in
      let z := Byte.to_N c in
      String (b64_char (x / 4))
        (String (b64_char ((x mod 4) * 16 + y / 16))
           (String (b64_char ((y mod 16) * 4 + z / 64))
              (String (b64_char (z mod 64)) (b64_groups rest))))
  end%N.

Definition newline : string := String (ascii_of_nat 10) "".

(** [base64.encodebytes]: lines of at most 57 input bytes, each ended by a
    newline.  [fuel] bounds the number of lines. *)
Fixpoint encode_lines (fuel : nat) (bs : list Byte.byte) : string :=
  match fuel, bs with
  | _, [] => ""
  | O, _ => ""
  | S k, _ => b64_groups (take 57 bs) ++ newline ++ encode_lines k (drop 57 bs)
  end.

(** [codecs.encode(bs, 'base64').decode()] *)
Definition base64_encode (bs : list Byte.byte) : string :=
  encode_lines (length bs) bs.

(** ** Dictionaries *)

Fixpoint assoc_get (key : string) (items : list (string * value)) : option value :=
  match items with
  | [] => None
  | (k, v) :: rest => if String.eqb k key then Some v else assoc_get key rest
  end.

(** In-place [d[key] = v]: an existing key keeps its position, a new key
    goes last. *)
Fixpoint assoc_set (key : string) (v : value) (items : list (string * value))
  : list (string * value) :=
  match items with
  | [] => [(key, v)]
  | (k, old) :: rest =>
      if String.eqb k key then (k, v) :: rest
      else (k, old) :: assoc_set key v rest
  end.

(** [obj[key]] for a string key *)
Definition getitem (obj : value) (key : string) : py value :=
  match obj with
  | VDict items =>
      match assoc_get key items with
      | Some v => ret v
      | None => raise (KeyError key)
      end
  | VList _ => raise (TypeError "list indices must be integers or slices, not str")
  | VStr _ => raise (TypeError "string indices must be integers")
  | VNone => raise (TypeError "'NoneType' object is not subscriptable")
  | VBool _ => raise (TypeError "'bool' object is not subscriptable")
  | VInt _ => raise (TypeError "'int' object is not subscriptable")
  end.

(** [obj[key] = v] for a string key; the result is the updated object. *)
Definition setitem (obj : value) (key : string) (v : value) : py value :=
  match obj with
  | VDict items => ret (VDict (assoc_set key v items))
  | VList _ => raise (TypeError "list indices must be integers or slices, not str")
  | VStr _ => raise (TypeError "'str' object does not support item assignment")
  | VNone => raise (TypeError "'NoneType' object does not support item assignment")
  | VBool _ => raise (TypeError "'bool' object does not support item assignment")
  | VInt _ => raise (TypeError "'int' object does not support item assignment")
  end.

(** ** The collaborators *)

(** What the surroundings decide: the random choices of [uuid] and
    [tempfile], and the answers of the object store, of the schema
    validator, of the HTTP service and of [pickle]. *)
Record env : Type := {
  uuid4 : N;
    (* uuid.uuid4().int *)
  gettempdir : string;
    (* tempfile.gettempdir() *)
  random_name : string;
    (* the random characters mkstemp puts in the file name *)
  s3_put : string -> string -> string -> list Byte.byte -> option exn;
    (* what s3.Object(bucket, key).put(ACL=acl, Body=body) raises, if anything *)
  schema_check : value -> string -> option exn;
    (* what validate_against_dlhub_schema(metadata, name) raises, if anything *)
  http_get : string -> outcome response;
  http_post : string -> value -> outcome response;
  pkl_dumps : value -> outcome (list Byte.byte)
}.

(** The interface of [BaseMetadataModel] the client uses.  [get_zip_file]
    writes the archive: it may change the local files and may raise. *)
Record model : Type := {
  to_dict : bool -> outcome value;
    (* model.to_dict(simplify_paths=...) *)
  get_zip_file :
    string -> gmap string (list Byte.byte) ->
    gmap string (list Byte.byte) * option exn
    (* model.get_zip_file(path) *)
}.

Definition call_get_zip_file (servable : model) (path : string) : py unit :=
  fun w =>
    match get_zip_file servable path (files w) with
    | (fs, None) => (with_files fs w, Return tt)
    | (fs, Some e) => (with_files fs w, Raise e)
    end.

(** [tempfile.mkstemp(suffix)]: creates an empty file named
    [<tempdir>/tmp<random><suffix>] and returns a descriptor and the path. *)
Definition mkstemp (E : env) (suffix : string) : py (nat * string) :=
  fun w =>
    let path := os_path_join (gettempdir E) ["tmp" ++ random_name E ++ suffix] in
    (with_files (<[path := []]> (files w)) w, Return (3%nat, path)).

(** [os.close(fd)]: descriptors are not part of the state. *)
Definition os_close (fd : nat) : py unit := ret tt.

(** [os.unlink(path)] *)
Definition os_unlink (path : string) : py unit :=
  fun w =>
    match files w !! path with
    | Some _ => (with_files (delete path (files w)) w, Return tt)
    | None => (w, Raise (FileNotFoundError path))
    end.

(** [open(path, 'rb')], read in full by its consumer *)
Definition open_rb (path : string) : py (list Byte.byte) :=
  fun w =>
    match files w !! path with
    | Some content => (w, Return content)
    | None => (w, Raise (FileNotFoundError path))
    end.

(** [s3.Object(bucket, key).put(ACL=acl, Body=body)] *)
Definition s3_object_put (E : env) (bucket key acl : string) (body : list Byte.byte)
  : py unit :=
  fun w =>
    match s3_put E bucket key acl body with
    | None => (log (PutObject bucket key acl body) w, Return tt)
    | Some e => (log (PutObject bucket key acl body) w, Raise e)
    end.

(** [validate_against_dlhub_schema(metadata, name)] *)
Definition validate_against_dlhub_schema (E : env) (metadata : value) (name : string)
  : py unit :=
  fun w =>
    match schema_check E metadata name with
    | None => (log (Validated metadata name) w, Return tt)
    | Some e => (log (Validated metadata name) w, Raise e)
    end.

(** [self.get(path)] *)
Definition get (E : env) (path : string) : py response :=
  fun w => (log (Got path) w, http_get E path).

(** [self.post(path, json_body=json_body)] *)
Definition post (E : env) (path : string) (json_body : value) : py response :=
  fun w => (log (Posted path json_body) w, http_post E path json_body).

(** ** The client *)

Module DLHubClient.

(** [r.json()]: the response object [BaseClient.get] hands back keeps the
    decoded body in the attribute [data] and has no attribute [json], so
    looking the method up raises [AttributeError]. *)
Definition response_json (r : response) : py value :=
  raise (Failure "AttributeError" "'GlobusHTTPResponse' object has no attribute 'json'").

Definition get_task_status (E : env) (task_id : string) : py value :=
  let* r := get E (task_id ++ "/status") in
  response_json r.

(** The [if]/[elif] chain of [run] that prepares the data to be sent. *)
Definition prepare_data (E : env) (inputs : value) (input_type : string) : py value :=
  if String.eqb input_type "python" then
    let* pickled := of_outcome (pkl_dumps E inputs) in
    ret (VDict [("python", VStr (base64_encode pickled))])
  else if String.eqb input_type "json" then
    ret (VDict [("data", inputs)])
  else if String.eqb input_type "files" then
    raise (NotImplementedError "Files support is not yet implemented")
  else
    raise (ValueError ("Input type not recognized: " ++ input_type)).

Definition servable_path (author name : string) : string :=
  "servables/" ++ author ++ "/" ++ name ++ "/run".

(** [input_type] defaults to ['json'] in the source; callers of the model
    pass it.  [r.http_status is not 200] compares an [int] with a small
    integer literal, which CPython answers as [!=] does. *)
Definition run (E : env) (author name : string) (inputs : value)
    (input_type : string) : py value :=
  (* Prepare the data to be sent to DLHub *)
  let* data_ := prepare_data E inputs input_type in
  (* Send the data to DLHub *)
  let* r := post E (servable_path author name) data_ in
  if negb (http_status r =? 200)%Z then raise (Exception_ r)
  else
    (* Return the result *)
    ret (data r).

Definition bucket_name : string := "dlhub-anl".
Definition dest_dir : string := "servables/".

Definition credentials_message : string :=
  "Failed to load AWS credentials. Please check they are configured with 'aws configure'.".

(** The [except] clauses of [_stage_data], in order. *)
Definition stage_handler (e : exn) : py (option string) :=
  if is_NoCredentialsError e then
    print credentials_message ;;
    ret None
  else if is_Exception e then
    print ("Publication error: " ++ exn_str e) ;;
    ret None
  else raise e.

(** The [try] block of [_stage_data]. *)
Definition stage_body (E : env) (servable : model) (dest_uuid zip_filename : string)
  : py (option string) :=
  call_get_zip_file servable zip_filename ;;
  let destpath :=
    os_path_join dest_dir [dest_uuid; List.last (split "/" zip_filename) ""] in
  print ("Uploading: " ++ zip_filename) ;;
  let* body := open_rb zip_filename in
  s3_object_put E bucket_name destpath "public-read" body ;;
  let staged_path := os_path_join "s3://" [bucket_name; dest_dir; dest_uuid] in
  ret (Some staged_path).

(** [boto3.resource('s3')] only builds the handle used by [s3_object_put];
    it sends nothing and is not a step of its own here. *)
Definition _stage_data (E : env) (servable : model) : py (option string) :=
  (* Generate a uuid to deposit the data *)
  let dest_uuid := str_uuid (uuid4 E) in
  let* tmp := mkstemp E ".zip" in
  let fp := fst tmp in
  let zip_filename := snd tmp in
  os_close fp ;;
  os_unlink zip_filename ;;
  try_finally
    (try_except (stage_body E servable dest_uuid zip_filename) stage_handler)
    (os_unlink zip_filename).

(** [metadata['dlhub']['transfer_method'] = {'S3': staged_path}]: the
    inner dictionary is updated in place, so the outer one sees the new
    entry. *)
Definition set_transfer_method (metadata : value) (staged_path : string) : py value :=
  let* dlhub := getitem metadata "dlhub" in
  let* dlhub := setitem dlhub "transfer_method" (VDict [("S3", VStr staged_path)]) in
  setitem metadata "dlhub" dlhub.

Definition publish_servable (E : env) (m : model) : py value :=
  (* Get the metadata *)
  let* metadata := of_outcome (to_dict m true) in
  (* Stage data for DLHub to access *)
  let* staged_path := _stage_data E m in
  (* [if not staged_path: return]: None and the empty string are falsy *)
  match staged_path with
  | None => ret VNone
  | Some path =>
      if String.eqb path "" then ret VNone
      else
        (* Mark the method used to submit the model *)
        let* metadata := set_transfer_method metadata path in
        (* Validate against the servable schema *)
        validate_against_dlhub_schema E metadata "servable" ;;
        (* Publish to DLHub *)
        let* response := post E "publish" metadata in
        let* task_id := getitem (data response) "task_id" in
        ret task_id
  end.

Definition publish_repository (E : env) (repository : string) : py value :=
  (* Publish to DLHub *)
  let metadata := VDict [("repository", VStr repository)] in
  let* response := post E "publish_repo" metadata in
  let* task_id := getitem (data response) "task_id" in
  ret task_id.

End DLHubClient.

(** ** Names used in the statements *)

(** The path [mkstemp('.zip')] hands to [_stage_data]. *)
Definition zip_filename (E : env) : string :=
  os_path_join (gettempdir E) ["tmp" ++ random_name E ++ ".zip"].

(** [str(uuid.uuid4())] *)
Definition dest_uuid (E : env) : string := str_uuid (uuid4 E).

(** The key of the uploaded object. *)
Definition destpath (E : env) : string :=
  os_path_join DLHubClient.dest_dir
    [dest_uuid E; List.last (split "/" (zip_filename E)) ""].

(** The local files when the [try] block of [_stage_data] starts: the
    placeholder made by [mkstemp] is gone again. *)
Definition placeholder_removed (E : env) (w : world) : world :=
  with_files (delete (zip_filename E) (<[zip_filename E := []]> (files w))) w.

(** The [try]/[except] part of [_stage_data], without its [finally]. *)
Definition stage_guarded (E : env) (m : model) : py (option string) :=
  try_except (DLHubClient.stage_body E m (dest_uuid E) (zip_filename E))
    DLHubClient.stage_handler.

(** The HTTP requests among some events. *)
Definition is_request (ev : event) : bool :=
  match ev with
  | Got _ | Posted _ _ => true
  | _ => false
  end.

Definition requests (evs : list event) : list event := List.filter is_request evs.

(** The events added to the trace between two worlds. *)
Definition events_since (w w' : world) : list event :=
  drop (length (trace w)) (trace w').

(** The events staging can produce: lines on standard output and calls to
    the object store. *)
Definition is_stage_event (ev : event) : bool :=
  match ev with
  | Printed _ | PutObject _ _ _ _ => true
  | _ => false
  end.

(** The storage client is reached and raises [e]: packaging succeeded, the
    archive could be opened, and the [put] call raised. *)
Definition upload_raises (E : env) (m : model) (w : world) (e : exn) : Prop :=
  exists fs body,
    get_zip_file m (zip_filename E) (files (placeholder_removed E w)) = (fs, None) /\
    fs !! zip_filename E = Some body /\
    s3_put E DLHubClient.bucket_name (destpath E) "public-read" body = Some e.

(** ** Sample collaborators *)

Definition sample_response : response :=
  {| http_status := 200;
     data := VDict [("task_id", VStr "bf06d72e-0478-11e9-97fc-0a4dfa7e8a3e")];
     repr := "<GlobusHTTPResponse>" |}.

Definition error_response : response :=
  {| http_status := 500;
     data := VDict [("error", VStr "servable failed")];
     repr := "<GlobusHTTPResponse>" |}.

(** A service that accepts everything and a store with credentials. *)
Definition sample_env : env :=
  {| uuid4 := 0x1b4e28ba2fa111d2883f0016d3cca427;
     gettempdir := "/tmp";
     random_name := "k3x9_q2a";
     s3_put := fun _ _ _ _ => None;
     schema_check := fun _ _ => None;
     http_get := fun _ => Return sample_response;
     http_post := fun _ _ => Return sample_response;
     pkl_dumps := fun _ => Return [Byte.x80; Byte.x03; Byte.x4b; Byte.x01; Byte.x2e] |}.

(** The same surroundings with a store that has no credentials. *)
Definition no_credentials_env : env :=
  {| uuid4 := uuid4 sample_env;
     gettempdir := gettempdir sample_env;
     random_name := random_name sample_env;
     s3_put := fun _ _ _ _ => Some NoCredentialsError;
     schema_check := schema_check sample_env;
     http_get := http_get sample_env;
     http_post := http_post sample_env;
     pkl_dumps := pkl_dumps sample_env |}.

(** The same surroundings with a service that answers 500. *)
Definition failing_service_env : env :=
  {| uuid4 := uuid4 sample_env;
     gettempdir := gettempdir sample_env;
     random_name := random_name sample_env;
     s3_put := s3_put sample_env;
     schema_check := schema_check sample_env;
     http_get := fun _ => Return error_response;
     http_post := fun _ _ => Return error_response;
     pkl_dumps := pkl_dumps sample_env |}.

(** The same surroundings with a validator that rejects everything. *)
Definition rejecting_env : env :=
  {| uuid4 := uuid4 sample_env;
     gettempdir := gettempdir sample_env;
     random_name := random_name sample_env;
     s3_put := s3_put sample_env;
     schema_check := fun _ _ => Some (Failure "ValidationError" "'servable' is a required property");
     http_get := http_get sample_env;
     http_post := http_post sample_env;
     pkl_dumps := pkl_dumps sample_env |}.

Definition sample_metadata : value :=
  VDict [("datacite", VDict [("creators", VList []); ("titles", VList [VNone]);
                             ("publisher", VStr "DLHub");
                             ("resourceType", VStr "InteractiveResource")]);
         ("dlhub", VDict [("version", VStr "0.1"); ("domain", VNone);
                          ("visible_to", VList [VStr "public"])]);
         ("servable", VDict [("langugage", VStr "python");
                             ("type", VStr "py_static_method")])].

(** A model whose archive is written in full. *)
Definition sample_model : model :=
  {| to_dict := fun _ => Return sample_metadata;
     get_zip_file := fun path fs => (<[path := [Byte.x50; Byte.x4b]]> fs, None) |}.

(** A model whose packaging fails before the archive is opened for
    writing, as when the directory of the archive cannot be written. *)
Definition unpackable_model : model :=
  {| to_dict := fun _ => Return sample_metadata;
     get_zip_file := fun path fs => (fs, Some (Failure "PermissionError" "[Errno 13] Permission denied")) |}.

(** A model whose packaging fails after the archive was opened for
    writing, as when one of the listed files is missing. *)
Definition half_packed_model : model :=
  {| to_dict := fun _ => Return sample_metadata;
     get_zip_file := fun path fs => (<[path := []]> fs, Some (FileNotFoundError "model.pkl")) |}.

(** A model whose input and output descriptors were never set. *)
Definition undescribed_model : model :=
  {| to_dict := fun _ => Raise (ValueError "Inputs must be defined");
     get_zip_file := get_zip_file sample_model |}.

Definition empty_world : world := {| files := ∅; trace := [] |}.

(** The uploads among some events. *)
Definition is_upload (ev : event) : bool :=
  match ev with
  | PutObject _ _ _ _ => true
  | _ => false
  end.

Definition uploads (evs : list event) : list event := List.filter is_upload evs.

(** The local files once packaging has run on the cleared archive path. *)
Definition packaged_files (E : env) (m : model) (w : world)
  : gmap string (list Byte.byte) :=
  fst (get_zip_file m (zip_filename E) (files (placeholder_removed E w))).

(** A store and a service that are interrupted from the keyboard. *)
Definition interrupted_env : env :=
  {| uuid4 := uuid4 sample_env;
     gettempdir := gettempdir sample_env;
     random_name := random_name sample_env;
     s3_put := fun _ _ _ _ => Some (Signal "KeyboardInterrupt");
     schema_check := schema_check sample_env;
     http_get := fun _ => Raise (Signal "KeyboardInterrupt");
     http_post := fun _ _ => Raise (Signal "KeyboardInterrupt");
     pkl_dumps := fun _ => Raise (Failure "PicklingError" "Can't pickle local object") |}.

(** A model whose packaging returns without writing anything. *)
Definition idle_model : model :=
  {| to_dict := to_dict sample_model;
     get_zip_file := fun path fs => (fs, None) |}.

(** What [publish_servable] does once staging has handed it a reference. *)
Definition submit (E : env) (metadata : value) (staged_path : string) : py value :=
  let* metadata := DLHubClient.set_transfer_method metadata staged_path in
  validate_against_dlhub_schema E metadata "servable" ;;
  let* response := post E "publish" metadata in
  let* task_id := getitem (data response) "task_id" in
  ret task_id.

(** A service whose answer to a submission carries no task id. *)
Definition taskless_env : env :=
  {| uuid4 := uuid4 sample_env;
     gettempdir := gettempdir sample_env;
     random_name := random_name sample_env;
     s3_put := s3_put sample_env;
     schema_check := schema_check sample_env;
     http_get := http_get sample_env;
     http_post := fun _ _ => Return error_response;
     pkl_dumps := pkl_dumps sample_env |}.

(** A model whose metadata has no ['dlhub'] block. *)
Definition blockless_model : model :=
  {| to_dict := fun _ => Return (VDict [("datacite", VDict [])]);
     get_zip_file := get_zip_file sample_model |}.

(** The reference staging returns in the sample surroundings, the world it
    leaves and the metadata once the reference is injected. *)
Definition sample_reference : string :=
  "s3://dlhub-anl/servables/1b4e28ba-2fa1-11d2-883f-0016d3cca427".

Definition sample_staged_world : world :=
  {| files := ∅;
     trace := [Printed "Uploading: /tmp/tmpk3x9_q2a.zip";
               PutObject "dlhub-anl"
                 "servables/1b4e28ba-2fa1-11d2-883f-0016d3cca427/tmpk3x9_q2a.zip"
                 "public-read" [Byte.x50; Byte.x4b]] |}.

Definition sample_staged_metadata : value :=
  VDict [("datacite", VDict [("creators", VList []); ("titles", VList [VNone]);
                             ("publisher", VStr "DLHub");
                             ("resourceType", VStr "InteractiveResource")]);
         ("dlhub", VDict [("version", VStr "0.1"); ("domain", VNone);
                          ("visible_to", VList [VStr "public"]);
                          ("transfer_method", VDict [("S3", VStr sample_reference)])]);
         ("servable", VDict [("langugage", VStr "python");
                             ("type", VStr "py_static_method")])].

(** ** Reading base64 back

    The inverse of [base64_encode], as the service applies it to the
    ['python'] field: newlines are skipped, every four characters give up
    to three bytes, and ['='] marks the padding. *)

(** The position of [c] in [alphabet], counted from [i]. *)
Fixpoint find_index (c : ascii) (alphabet : string) (i : N) : N :=
  match alphabet with
  | EmptyString => i
  | String d rest => if Ascii.eqb c d then i else find_index c rest (i + 1)%N
  end.

Definition b64_value (c : ascii) : N := find_index c b64_alphabet 0.

Definition is_newline (c : ascii) : bool := Ascii.eqb c (ascii_of_nat 10).

Definition is_padding (c : ascii) : bool := Ascii.eqb c "=".

Definition decode_quad (a b c d : ascii) : list N :=
  let va := b64_value a in
  let vb := b64_value b in
  let vc := b64_value c in
  let vd := b64_value d in
  let b0 := (va * 4 + vb / 16)%N in
  let b1 := ((vb mod 16) * 16 + vc / 4)%N in
  let b2 := ((vc mod 4) * 64 + vd)%N in
  if is_padding c then [b0]
  else if is_padding d then [b0; b1]
  else [b0; b1; b2].

Fixpoint base64_decode (s : string) : list N :=
  match s with
  | EmptyString => []
  | String a rest =>
      if is_newline a then base64_decode rest
      else
        match rest with
        | String b (String c (String d rest')) =>
            decode_quad a b c d ++ base64_decode rest'
        | _ => []
        end
  end.

(** ** Logging in: [DLHubClient.__init__] and [DLHubClient.login] *)

Module Login.

(** The calls [login] makes into [dlhub_sdk.config] and
    [dlhub_sdk.utils.auth], in the order it makes them. *)
Inductive auth_event : Type :=
| CheckedLoggedIn
    (* check_logged_in() *)
| RanLoginFlow
    (* do_login_flow() *)
| MadeAuthorizer.
    (* make_authorizer() *)

(** What those modules answer. *)
Record auth : Type := {
  check_logged_in : bool;
    (* whether credentials are saved on the system *)
  do_login_flow : option exn;
    (* what the login procedure raises, if anything *)
  make_authorizer : outcome string;
    (* the authorizer built from the saved credentials *)
  DLHUB_SERVICE_ADDRESS : string
}.

(** The arguments [DLHubClient.__init__] hands to [BaseClient.__init__]. *)
Record client : Type := {
  name : string;
  environment : string;
  authorizer : string;
  http_timeout : option Z;
  base_url : string
}.

Definition io (A : Type) : Type :=
  list auth_event -> list auth_event * outcome A.

Definition io_ret {A} (a : A) : io A := fun t => (t, Return a).

Definition io_bind {A B} (m : io A) (k : A -> io B) : io B :=
  fun t =>
    match m t with
    | (t', Return a) => k a t'
    | (t', Raise e) => (t', Raise e)
    end.

Definition call_check_logged_in (A : auth) : io bool :=
  fun t => ((t ++ [CheckedLoggedIn])%list, Return (check_logged_in A)).

Definition call_do_login_flow (A : auth) : io unit :=
  fun t =>
    match do_login_flow A with
    | None => ((t ++ [RanLoginFlow])%list, Return tt)
    | Some e => ((t ++ [RanLoginFlow])%list, Raise e)
    end.

Definition call_make_authorizer (A : auth) : io string :=
  fun t => ((t ++ [MadeAuthorizer])%list, make_authorizer A).

(** [DLHubClient(authorizer, http_timeout=http_timeout)] *)
Definition __init__ (A : auth) (authorizer : string) (http_timeout : option Z) : client :=
  {| name := "DLHub";
     environment := "dlhub";
     authorizer := authorizer;
     http_timeout := http_timeout;
     base_url := DLHUB_SERVICE_ADDRESS A |}.

(** [DLHubClient.login(force, http_timeout=...)].  [force or not
    check_logged_in()] is evaluated left to right: with [force] set, the
    check is not made. *)
Definition login (A : auth) (force : bool) (http_timeout : option Z) : io client :=
  (* If not logged in or `force`, get credentials *)
  io_bind (if force then io_ret true
           else io_bind (call_check_logged_in A) (fun logged => io_ret (negb logged)))
    (fun needed =>
       io_bind (if needed then call_do_login_flow A else io_ret tt)
         (fun _ =>
            (* Makes an authorizer *)
            io_bind (call_make_authorizer A)
              (fun rf_authorizer => io_ret (__init__ A rf_authorizer http_timeout)))).

End Login.

(** What botocore raises when the store rejects the credentials it is
    given: a [ClientError], not a [NoCredentialsError]. *)
Definition rejected_credentials : exn :=
  Failure "ClientError"
    "An error occurred (InvalidAccessKeyId) when calling the PutObject operation: The AWS Access Key Id you provided does not exist in our records.".

(** The sample surroundings with a store that rejects the credentials. *)
Definition invalid_credentials_env : env :=
  {| uuid4 := uuid4 sample_env;
     gettempdir := gettempdir sample_env;
     random_name := random_name sample_env;
     s3_put := fun _ _ _ _ => Some rejected_credentials;
     schema_check := schema_check sample_env;
     http_get := http_get sample_env;
     http_post := http_post sample_env;
     pkl_dumps := pkl_dumps sample_env |}.

(** * Properties *)

(** ** Paths and identifiers *)

Lemma hex_digit_not_sep (d : N) : Ascii.eqb (hex_digit d) "/" = false.
Proof.
  unfold hex_digit.
  repeat match goal with
         | |- context [match ?x with _ => _ end] => destruct x
         end; reflexivity.
Qed.

Lemma str_uuid_startswith (n : N) : startswith_sep (str_uuid n) = false.
Proof.
  unfold str_uuid.
  cbn [hex_digits substring String.append startswith_sep].
  apply hex_digit_not_sep.
Qed.

Lemma str_uuid_endswith (n : N) : endswith_sep (str_uuid n) = false.
Proof.
  unfold str_uuid.
  cbn [hex_digits substring String.append endswith_sep].
  apply hex_digit_not_sep.
Qed.

Lemma str_uuid_nonempty (n : N) : str_uuid n <> "".
Proof.
  unfold str_uuid.
  cbn [hex_digits substring String.append].
  discriminate.
Qed.

Lemma endswith_sep_app (p s : string) :
  s <> "" -> endswith_sep (p ++ s) = endswith_sep s.
Proof.
  intros Hs. induction p as [|c p IH]; [reflexivity|].
  change (String c p ++ s) with (String c (p ++ s)).
  cbn [endswith_sep]. rewrite IH.
  destruct (p ++ s) eqn:Hps; [|reflexivity].
  destruct p; [change ("" ++ s) with s in Hps; congruence | discriminate].
Qed.

Lemma string_length_app (p s : string) :
  String.length (p ++ s) = (String.length p + String.length s)%nat.
Proof.
  induction p as [|c p IH]; [reflexivity|].
  change (String c p ++ s) with (String c (p ++ s)).
  cbn [String.length]. rewrite IH. reflexivity.
Qed.

Lemma split_nonempty (sep : ascii) (s : string) : split sep s <> [].
Proof.
  destruct s as [|c s]; cbn [split]; [discriminate|].
  destruct (Ascii.eqb c sep); [discriminate|].
  destruct (split sep s); discriminate.
Qed.

(** The last piece of a split path holds no separator in front. *)
Lemma split_last_no_sep (s : string) :
  startswith_sep (List.last (split "/" s) "") = false.
Proof.
  induction s as [|c s IH]; [reflexivity|].
  cbn [split]. destruct (Ascii.eqb c "/") eqn:Hc.
  - pose proof (split_nonempty "/" s) as Hne.
    destruct (split "/" s) as [|piece pieces]; [congruence|exact IH].
  - destruct (split "/" s) as [|piece pieces]; [cbn; exact Hc|].
    destruct pieces as [|piece' pieces]; [cbn; exact Hc|exact IH].
Qed.

(** [os.path.join("s3://", bucket_name, dest_dir, dest_uuid)] *)
Lemma staged_path_eq (E : env) :
  os_path_join "s3://" [DLHubClient.bucket_name; DLHubClient.dest_dir; dest_uuid E]
  = "s3://dlhub-anl/servables/" ++ dest_uuid E.
Proof.
  unfold os_path_join. cbn [fold_left].
  change (join_step (join_step "s3://" DLHubClient.bucket_name) DLHubClient.dest_dir)
    with "s3://dlhub-anl/servables/".
  unfold join_step, dest_uuid. rewrite str_uuid_startswith. reflexivity.
Qed.

(** [os.path.join(dest_dir, dest_uuid, zip_filename.split("/")[-1])] *)
Lemma destpath_eq (E : env) :
  destpath E
  = "servables/" ++ dest_uuid E ++ "/" ++ List.last (split "/" (zip_filename E)) "".
Proof.
  unfold destpath, os_path_join. cbn [fold_left].
  assert (H1 : join_step DLHubClient.dest_dir (dest_uuid E) = "servables/" ++ dest_uuid E).
  { unfold join_step, dest_uuid. rewrite str_uuid_startswith. reflexivity. }
  rewrite H1. unfold join_step at 1.
  rewrite split_last_no_sep.
  rewrite endswith_sep_app by apply str_uuid_nonempty.
  unfold dest_uuid. rewrite str_uuid_endswith. reflexivity.
Qed.

(** ** Staging, step by step *)

Ltac unfold_stage :=
  unfold try_finally, stage_guarded, try_except, DLHubClient.stage_body,
    DLHubClient.stage_handler, bind, call_get_zip_file, print, open_rb,
    s3_object_put, os_unlink, ret, raise, placeholder_removed in *;
  cbn [files trace with_files log fst snd] in *.

(** [_stage_data] is its guarded [try] block run once the placeholder is
    gone, followed by the [finally] clause. *)
Lemma stage_data_unfold (E : env) (m : model) (w : world) :
  DLHubClient._stage_data E m w
  = try_finally (stage_guarded E m) (os_unlink (zip_filename E))
      (placeholder_removed E w).
Proof.
  unfold DLHubClient._stage_data, bind, mkstemp, os_close, os_unlink at 1, ret.
  cbn [fst snd files with_files]. fold (zip_filename E).
  rewrite lookup_insert_eq. reflexivity.
Qed.

(** The [finally] clause when the archive is there: it is removed and the
    result of the guarded block stands. *)
Lemma stage_data_archive_present (E : env) (m : model) (w w1 : world)
    (r : outcome (option string)) :
  stage_guarded E m (placeholder_removed E w) = (w1, r) ->
  is_Some (files w1 !! zip_filename E) ->
  DLHubClient._stage_data E m w
  = (with_files (delete (zip_filename E) (files w1)) w1, r).
Proof.
  intros Hg [body Hb]. rewrite stage_data_unfold.
  unfold try_finally. rewrite Hg. unfold os_unlink. rewrite Hb. reflexivity.
Qed.

(** The [finally] clause when the archive is not there: [os.unlink] raises
    and its exception replaces the result of the guarded block. *)
Lemma stage_data_archive_absent (E : env) (m : model) (w w1 : world)
    (r : outcome (option string)) :
  stage_guarded E m (placeholder_removed E w) = (w1, r) ->
  files w1 !! zip_filename E = None ->
  DLHubClient._stage_data E m w
  = (w1, Raise (FileNotFoundError (zip_filename E))).
Proof.
  intros Hg Hb. rewrite stage_data_unfold.
  unfold try_finally. rewrite Hg. unfold os_unlink. rewrite Hb. reflexivity.
Qed.

(** The handlers swallow every instance of [Exception], keep the files and
    print one line. *)
Lemma stage_handler_swallows (e : exn) (w : world) :
  is_Exception e = true ->
  exists line,
    DLHubClient.stage_handler e w = (log (Printed line) w, Return None) /\
    (e = NoCredentialsError -> line = DLHubClient.credentials_message).
Proof.
  intros He. unfold DLHubClient.stage_handler, bind, print, ret.
  destruct (is_NoCredentialsError e) eqn:Hc.
  - eexists; split; [reflexivity|reflexivity].
  - rewrite He. eexists; split; [reflexivity|].
    intros ->. discriminate.
Qed.

(** Staging only prints and calls the object store. *)
Lemma stage_events (E : env) (m : model) (w w' : world)
    (r : outcome (option string)) :
  DLHubClient._stage_data E m w = (w', r) ->
  exists evs,
    trace w' = (trace w ++ evs)%list /\ forallb is_stage_event evs = true.
Proof.
  rewrite stage_data_unfold. unfold_stage. intros H.
  repeat case_match; simplify_eq; cbn [files trace with_files log];
    rewrite <- ?app_assoc;
    first [ eexists; split; [reflexivity|reflexivity]
          | exists []; split; [symmetry; apply app_nil_r|reflexivity] ].
Qed.

(** Whatever staging does, no file is left under the archive's name. *)
Lemma stage_data_leaves_no_archive (E : env) (m : model) (w : world) :
  files (fst (DLHubClient._stage_data E m w)) !! zip_filename E = None.
Proof.
  rewrite stage_data_unfold. unfold try_finally.
  destruct (stage_guarded E m (placeholder_removed E w)) as [w1 r].
  unfold os_unlink.
  destruct (files w1 !! zip_filename E) eqn:Hz; cbn [fst files with_files].
  - apply lookup_delete_eq.
  - exact Hz.
Qed.

Lemma events_since_app (w w' : world) (evs : list event) :
  trace w' = (trace w ++ evs)%list -> events_since w w' = evs.
Proof. intros H. unfold events_since. rewrite H. apply drop_app_length. Qed.

Lemma requests_of_stage_events (evs : list event) :
  forallb is_stage_event evs = true -> requests evs = [].
Proof.
  induction evs as [|ev evs IH]; [reflexivity|].
  cbn [forallb requests List.filter]. intros H.
  apply andb_true_iff in H as [Hev Hevs].
  destruct ev; try discriminate; cbn [is_request]; apply IH, Hevs.
Qed.

(** The guarded block once packaging has succeeded and the archive can be
    opened: the upload is attempted, and its outcome decides. *)
Lemma stage_guarded_upload (E : env) (m : model) (w : world)
    (fs : gmap string (list Byte.byte)) (body : list Byte.byte) :
  get_zip_file m (zip_filename E) (files (placeholder_removed E w)) = (fs, None) ->
  fs !! zip_filename E = Some body ->
  stage_guarded E m (placeholder_removed E w)
  = let w2 :=
      log (PutObject DLHubClient.bucket_name (destpath E) "public-read" body)
        (log (Printed ("Uploading: " ++ zip_filename E))
           (with_files fs (placeholder_removed E w))) in
    match s3_put E DLHubClient.bucket_name (destpath E) "public-read" body with
    | None =>
        (w2, Return (Some (os_path_join "s3://"
                             [DLHubClient.bucket_name; DLHubClient.dest_dir; dest_uuid E])))
    | Some e => DLHubClient.stage_handler e w2
    end.
Proof.
  intros Hzip Hbody. unfold stage_guarded, try_except, DLHubClient.stage_body,
    bind, call_get_zip_file, print, open_rb, s3_object_put, ret.
  rewrite Hzip. cbn [files with_files log]. rewrite Hbody.
  fold (destpath E).
  destruct (s3_put E DLHubClient.bucket_name (destpath E) "public-read" body);
    reflexivity.
Qed.

(** When the storage client raises an instance of [Exception], staging
    prints one line, removes the archive and returns [None]. *)
Lemma stage_data_upload_raises (E : env) (m : model) (w : world) (e : exn) :
  upload_raises E m w e ->
  is_Exception e = true ->
  exists fs body line,
    DLHubClient._stage_data E m w
    = ({| files := delete (zip_filename E) fs;
          trace := trace w ++ [Printed ("Uploading: " ++ zip_filename E);
                               PutObject DLHubClient.bucket_name (destpath E)
                                 "public-read" body;
                               Printed line] |},
       Return None) /\
    (e = NoCredentialsError -> line = DLHubClient.credentials_message).
Proof.
  intros (fs & body & Hzip & Hbody & Hput) He.
  pose proof (stage_guarded_upload E m w fs body Hzip Hbody) as Hg.
  cbv zeta in Hg. rewrite Hput in Hg.
  match type of Hg with
  | _ = DLHubClient.stage_handler e ?w2 =>
      destruct (stage_handler_swallows e w2 He) as (line & Hh & Hline)
  end.
  rewrite Hh in Hg.
  exists fs, body, line. split; [|exact Hline].
  rewrite (stage_data_archive_present E m w _ _ Hg).
  - unfold log, with_files, placeholder_removed; cbn [files trace].
    rewrite <- !app_assoc. reflexivity.
  - cbn [files log with_files]. rewrite Hbody. eauto.
Qed.

(** ** Invocation: [run] *)

(** C6. For every author, name and inputs, [run] with [input_type='files']
    raises [NotImplementedError] at once: the world is left as it was, so
    no HTTP request (no [post]) was issued before the error. *)
Theorem run_files_not_implemented (E : env) (author name : string)
    (inputs : value) (w : world) :
  DLHubClient.run E author name inputs "files" w
  = (w, Raise (NotImplementedError "Files support is not yet implemented")).
Proof. reflexivity. Qed.

(** C7. For every [input_type] other than ['python'], ['json'] and
    ['files'], [run] raises [ValueError] with a message that ends in the
    received value, and the world is left as it was: no HTTP request was
    issued. *)
Theorem run_unrecognized_input_type (E : env) (author name : string)
    (inputs : value) (input_type : string) (w : world) :
  input_type <> "python" ->
  input_type <> "json" ->
  input_type <> "files" ->
  DLHubClient.run E author name inputs input_type w
  = (w, Raise (ValueError ("Input type not recognized: " ++ input_type)))
  /\ requests (events_since w (fst (DLHubClient.run E author name inputs input_type w)))
     = [].
Proof.
  intros Hp Hj Hf.
  assert (Hrun : DLHubClient.run E author name inputs input_type w
                 = (w, Raise (ValueError ("Input type not recognized: " ++ input_type)))).
  { unfold DLHubClient.run, DLHubClient.prepare_data, bind.
    apply String.eqb_neq in Hp, Hj, Hf. rewrite Hp, Hj, Hf. reflexivity. }
  split; [exact Hrun|].
  rewrite Hrun. cbn [fst]. unfold events_since.
  rewrite drop_all. reflexivity.
Qed.

Lemma run_unrecognized_input_type_witness :
  DLHubClient.run sample_env "alice" "iris" (VList [VInt 1]) "xml" empty_world
  = (empty_world, Raise (ValueError "Input type not recognized: xml")).
Proof.
  apply (run_unrecognized_input_type sample_env "alice" "iris" (VList [VInt 1])
           "xml" empty_world); discriminate.
Defined.

(** C8. Whenever [run] reaches the HTTP call (the request body was
    prepared) and the service answers with a response [r]: a status other
    than 200 makes [run] raise [Exception(r)], which carries the raw
    response, and status 200 makes it return [r.data].  In both cases
    exactly that one request was issued. *)
Theorem run_checks_http_status (E : env) (author name : string)
    (inputs : value) (input_type : string) (w : world) (body : value)
    (r : response) :
  DLHubClient.prepare_data E inputs input_type w = (w, Return body) ->
  http_post E (DLHubClient.servable_path author name) body = Return r ->
  let w' := log (Posted (DLHubClient.servable_path author name) body) w in
  (http_status r <> 200%Z ->
   DLHubClient.run E author name inputs input_type w = (w', Raise (Exception_ r)))
  /\ (http_status r = 200%Z ->
      DLHubClient.run E author name inputs input_type w = (w', Return (data r))).
Proof.
  intros Hprep Hpost w'.
  unfold DLHubClient.run, bind. rewrite Hprep.
  unfold post. rewrite Hpost. fold w'.
  split; intros Hs.
  - apply Z.eqb_neq in Hs. rewrite Hs. reflexivity.
  - apply Z.eqb_eq in Hs. rewrite Hs. reflexivity.
Qed.

Lemma run_checks_http_status_witness :
  (DLHubClient.run failing_service_env "alice" "iris" (VList [VInt 1]) "json" empty_world
   = (log (Posted "servables/alice/iris/run" (VDict [("data", VList [VInt 1])])) empty_world,
      Raise (Exception_ error_response)))
  /\ (DLHubClient.run sample_env "alice" "iris" (VInt 1) "python" empty_world
      = (log (Posted "servables/alice/iris/run" (VDict [("python", VStr ("gANLAS4=" ++ newline))]))
           empty_world,
         Return (data sample_response))).
Proof.
  split.
  - apply (run_checks_http_status failing_service_env "alice" "iris" (VList [VInt 1])
             "json" empty_world (VDict [("data", VList [VInt 1])]) error_response);
      [reflexivity | reflexivity | discriminate].
  - apply (run_checks_http_status sample_env "alice" "iris" (VInt 1)
             "python" empty_world (VDict [("python", VStr ("gANLAS4=" ++ newline))])
             sample_response);
      reflexivity.
Defined.

(** ** Staging: [_stage_data] *)

(** Packaging and upload both succeed: the reference is returned and the
    archive is removed. *)
Lemma stage_data_succeeds (E : env) (m : model) (w : world)
    (fs : gmap string (list Byte.byte)) (body : list Byte.byte) :
  get_zip_file m (zip_filename E) (files (placeholder_removed E w)) = (fs, None) ->
  fs !! zip_filename E = Some body ->
  s3_put E DLHubClient.bucket_name (destpath E) "public-read" body = None ->
  DLHubClient._stage_data E m w
  = ({| files := delete (zip_filename E) fs;
        trace := trace w ++ [Printed ("Uploading: " ++ zip_filename E);
                             PutObject DLHubClient.bucket_name (destpath E)
                               "public-read" body] |},
     Return (Some ("s3://dlhub-anl/servables/" ++ dest_uuid E))).
Proof.
  intros Hzip Hbody Hput.
  pose proof (stage_guarded_upload E m w fs body Hzip Hbody) as Hg.
  cbv zeta in Hg. rewrite Hput, staged_path_eq in Hg.
  rewrite (stage_data_archive_present E m w _ _ Hg).
  - unfold log, with_files, placeholder_removed; cbn [files trace].
    rewrite <- !app_assoc. reflexivity.
  - cbn [files log with_files]. rewrite Hbody. eauto.
Qed.

(** C4. When staging succeeds, that is when [_stage_data] returns a
    reference, the reference is [s3://dlhub-anl/servables/<uuid>]: the fixed
    bucket, the fixed prefix and the fresh identifier.  The one object that
    was uploaded has the key [servables/<uuid>/<archive name>], so the
    reference is the parent directory of the object and not the object
    itself, and it was put with the access control [public-read]. *)
Theorem stage_data_returns_directory_uri (E : env) (m : model) (w w' : world)
    (ref : string) :
  DLHubClient._stage_data E m w = (w', Return (Some ref)) ->
  let archive_name := List.last (split "/" (zip_filename E)) "" in
  let key := "servables/" ++ dest_uuid E ++ "/" ++ archive_name in
  ref = "s3://" ++ "dlhub-anl" ++ "/" ++ "servables" ++ "/" ++ dest_uuid E
  /\ (exists body,
        events_since w w'
        = [Printed ("Uploading: " ++ zip_filename E);
           PutObject "dlhub-anl" key "public-read" body])
  /\ "s3://dlhub-anl/" ++ key = ref ++ "/" ++ archive_name
  /\ ref <> "s3://dlhub-anl/" ++ key.
Proof.
  intros H archive_name key.
  assert (Href : ref = "s3://dlhub-anl/servables/" ++ dest_uuid E
                 /\ exists body,
                      trace w'
                      = (trace w ++ [Printed ("Uploading: " ++ zip_filename E);
                                     PutObject "dlhub-anl" (destpath E)
                                       "public-read" body])%list).
  { rewrite stage_data_unfold in H. unfold_stage.
    fold (destpath E) in H. rewrite staged_path_eq in H.
    repeat case_match; simplify_eq; cbn [files trace with_files log].
    all: split; [reflexivity|]; eexists; rewrite <- !app_assoc; reflexivity. }
  destruct Href as [-> [body Htrace]].
  split; [reflexivity|]. split; [|split].
  - exists body. rewrite (events_since_app _ _ _ Htrace), destpath_eq. reflexivity.
  - subst key. reflexivity.
  - subst key. intros Heq.
    apply (f_equal String.length) in Heq.
    change ("s3://dlhub-anl/" ++ "servables/" ++ dest_uuid E ++ "/" ++ archive_name)
      with ("s3://dlhub-anl/servables/" ++ (dest_uuid E ++ ("/" ++ archive_name))) in Heq.
    rewrite !string_length_app in Heq.
    change (String.length "/") with 1%nat in Heq.
    lia.
Qed.

Lemma stage_data_returns_directory_uri_witness :
  "s3://dlhub-anl/servables/1b4e28ba-2fa1-11d2-883f-0016d3cca427"
  = "s3://" ++ "dlhub-anl" ++ "/" ++ "servables" ++ "/" ++ dest_uuid sample_env
  /\ exists body,
       events_since empty_world (fst (DLHubClient._stage_data sample_env sample_model empty_world))
       = [Printed ("Uploading: " ++ zip_filename sample_env);
          PutObject "dlhub-anl"
            ("servables/" ++ dest_uuid sample_env ++ "/"
               ++ List.last (split "/" (zip_filename sample_env)) "")
            "public-read" body].
Proof.
  pose proof (stage_data_returns_directory_uri sample_env sample_model empty_world
                (fst (DLHubClient._stage_data sample_env sample_model empty_world))
                "s3://dlhub-anl/servables/1b4e28ba-2fa1-11d2-883f-0016d3cca427"
                eq_refl) as H.
  cbv zeta in H. split; [apply H | apply H].
Defined.

(** The [finally] clause prints nothing: the trace [_stage_data] leaves is
    the trace its guarded block leaves. *)
Lemma stage_data_trace (E : env) (m : model) (w : world) :
  trace (fst (DLHubClient._stage_data E m w))
  = trace (fst (stage_guarded E m (placeholder_removed E w))).
Proof.
  rewrite stage_data_unfold. unfold try_finally.
  destruct (stage_guarded E m (placeholder_removed E w)) as [w1 r].
  unfold os_unlink. destruct (files w1 !! zip_filename E); reflexivity.
Qed.

(** The [try] block prints one line at most, the notice of the upload. *)
Lemma stage_body_prints (E : env) (m : model) (w w1 : world)
    (r : outcome (option string)) :
  DLHubClient.stage_body E m (dest_uuid E) (zip_filename E) (placeholder_removed E w)
  = (w1, r) ->
  exists evs,
    trace w1 = (trace w ++ evs)%list
    /\ forall line, In (Printed line) evs -> line = "Uploading: " ++ zip_filename E.
Proof.
  unfold DLHubClient.stage_body, bind, call_get_zip_file, print, open_rb,
    s3_object_put, ret, placeholder_removed.
  cbn [files trace with_files log]. intros H.
  repeat case_match; simplify_eq; cbn [files trace with_files log];
    rewrite <- ?app_assoc;
    first [ eexists; split; [reflexivity|]
          | exists []; split; [symmetry; apply app_nil_r|] ];
    intros line Hin; cbn [In app] in Hin;
    repeat match goal with
           | H : _ \/ _ |- _ => destruct H
           | H : False |- _ => destruct H
           end;
    congruence.
Qed.

(** The general handler, for an instance of [Exception] that is not a
    [NoCredentialsError]. *)
Lemma stage_handler_general (e : exn) (w : world) :
  is_Exception e = true ->
  e <> NoCredentialsError ->
  DLHubClient.stage_handler e w
  = (log (Printed ("Publication error: " ++ exn_str e)) w, Return None).
Proof.
  intros He Hne. unfold DLHubClient.stage_handler, bind, print, ret.
  destruct e; try congruence; try discriminate; reflexivity.
Qed.

(** C5, as amended.  If the credentials of the object store are absent,
    so that the upload raises [NoCredentialsError], [_stage_data] raises
    nothing: it returns [None] and the last line it prints is [Failed to
    load AWS credentials. Please check they are configured with 'aws
    configure'.].  That line is a report of this condition alone: over all
    executions it is printed exactly when the [try] block raised
    [NoCredentialsError].  Every other instance of [Exception] raised by
    the upload, the [ClientError] of rejected credentials included, gets
    the general line [Publication error: <str(e)>] and [None]. *)
Theorem stage_data_reports_missing_credentials (E : env) (m : model) (w : world) :
  let report :=
    "Failed to load AWS credentials. Please check they are configured with 'aws configure'." in
  (upload_raises E m w NoCredentialsError ->
   exists w' body,
     DLHubClient._stage_data E m w = (w', Return None)
     /\ events_since w w'
        = [Printed ("Uploading: " ++ zip_filename E);
           PutObject DLHubClient.bucket_name (destpath E) "public-read" body;
           Printed report])
  /\ (In (Printed report) (events_since w (fst (DLHubClient._stage_data E m w)))
      <-> exists w1,
            DLHubClient.stage_body E m (dest_uuid E) (zip_filename E)
              (placeholder_removed E w)
            = (w1, Raise NoCredentialsError))
  /\ (forall e,
        upload_raises E m w e ->
        is_Exception e = true ->
        e <> NoCredentialsError ->
        exists w' body,
          DLHubClient._stage_data E m w = (w', Return None)
          /\ events_since w w'
             = [Printed ("Uploading: " ++ zip_filename E);
                PutObject DLHubClient.bucket_name (destpath E) "public-read" body;
                Printed ("Publication error: " ++ exn_str e)]).
Proof.
  cbv zeta. split; [|split].
  - intros Hup.
    destruct (stage_data_upload_raises E m w NoCredentialsError Hup eq_refl)
      as (fs & body & line & Hs & Hline).
    rewrite (Hline eq_refl) in Hs.
    eexists _, body. split; [exact Hs|].
    apply events_since_app. reflexivity.
  - unfold events_since. rewrite stage_data_trace.
    unfold stage_guarded, try_except.
    destruct (DLHubClient.stage_body E m (dest_uuid E) (zip_filename E)
                (placeholder_removed E w)) as [w1 r1] eqn:Hb.
    destruct (stage_body_prints E m w w1 r1 Hb) as (evs & Htrace & Hevs).
    assert (Hnot : ~ In (Printed "Failed to load AWS credentials. Please check they are configured with 'aws configure'.") evs)
      by (intros Hin; specialize (Hevs _ Hin); discriminate).
    destruct r1 as [a|e].
    + cbn [fst]. rewrite Htrace, drop_app_length. split.
      * intros Hin. destruct (Hnot Hin).
      * intros [w2 Heq]. discriminate.
    + unfold DLHubClient.stage_handler, bind, print, ret, raise.
      destruct (is_NoCredentialsError e) eqn:Hc.
      * cbn [fst trace log]. rewrite Htrace, <- app_assoc, drop_app_length. split.
        -- intros _. exists w1. destruct e; try discriminate. reflexivity.
        -- intros _. apply in_or_app. right. left. reflexivity.
      * destruct (is_Exception e); cbn [fst trace log];
          rewrite Htrace, <- ?app_assoc, drop_app_length; split.
        -- intros Hin. apply in_app_or in Hin as [Hin | [Heq | []]];
             [destruct (Hnot Hin) | discriminate].
        -- intros [w2 Heq]. injection Heq as _ ->. discriminate.
        -- intros Hin. destruct (Hnot Hin).
        -- intros [w2 Heq]. injection Heq as _ ->. discriminate.
  - intros e (fs & body & Hzip & Hbody & Hput) He Hne.
    pose proof (stage_guarded_upload E m w fs body Hzip Hbody) as Hg.
    cbv zeta in Hg. rewrite Hput, (stage_handler_general e _ He Hne) in Hg.
    assert (Harchive : is_Some (fs !! zip_filename E)) by (rewrite Hbody; eauto).
    pose proof (stage_data_archive_present E m w _ _ Hg Harchive) as Hs.
    eexists _, body. split; [exact Hs|].
    apply events_since_app. unfold placeholder_removed.
    cbn [trace with_files log]. rewrite <- !app_assoc. reflexivity.
Qed.

Lemma sample_upload_raises :
  upload_raises no_credentials_env sample_model empty_world NoCredentialsError.
Proof.
  exists (<[zip_filename no_credentials_env := [Byte.x50; Byte.x4b]]> ∅),
         [Byte.x50; Byte.x4b].
  split; [|split]; reflexivity.
Defined.

Lemma rejected_upload_raises :
  upload_raises invalid_credentials_env sample_model empty_world rejected_credentials.
Proof.
  exists (<[zip_filename invalid_credentials_env := [Byte.x50; Byte.x4b]]> ∅),
         [Byte.x50; Byte.x4b].
  split; [|split]; reflexivity.
Defined.

Lemma stage_data_reports_missing_credentials_witness :
  (exists w' body,
     DLHubClient._stage_data no_credentials_env sample_model empty_world
     = (w', Return None)
     /\ events_since empty_world w'
        = [Printed ("Uploading: " ++ zip_filename no_credentials_env);
           PutObject DLHubClient.bucket_name (destpath no_credentials_env)
             "public-read" body;
           Printed "Failed to load AWS credentials. Please check they are configured with 'aws configure'."])
  /\ (exists w' body,
        DLHubClient._stage_data invalid_credentials_env sample_model empty_world
        = (w', Return None)
        /\ events_since empty_world w'
           = [Printed ("Uploading: " ++ zip_filename invalid_credentials_env);
              PutObject DLHubClient.bucket_name (destpath invalid_credentials_env)
                "public-read" body;
              Printed ("Publication error: " ++ exn_str rejected_credentials)]).
Proof.
  split.
  - exact (proj1 (stage_data_reports_missing_credentials no_credentials_env
                    sample_model empty_world)
             sample_upload_raises).
  - refine (proj2 (proj2 (stage_data_reports_missing_credentials
                            invalid_credentials_env sample_model empty_world))
              rejected_credentials rejected_upload_raises eq_refl _).
    discriminate.
Defined.

(** C5, as the claim states it, at the input where it fails.  The store
    rejects the credentials it is given and the upload raises
    [ClientError]: [_stage_data] returns [None], but the credentials line
    is not printed; the only report is the line of the general handler,
    the one every other failure gets. *)
Lemma stage_data_invalid_credentials_not_distinct :
  upload_raises invalid_credentials_env sample_model empty_world rejected_credentials
  /\ snd (DLHubClient._stage_data invalid_credentials_env sample_model empty_world)
     = Return None
  /\ ~ In (Printed "Failed to load AWS credentials. Please check they are configured with 'aws configure'.")
         (events_since empty_world
            (fst (DLHubClient._stage_data invalid_credentials_env sample_model
                    empty_world)))
  /\ events_since empty_world
       (fst (DLHubClient._stage_data invalid_credentials_env sample_model empty_world))
     = [Printed "Uploading: /tmp/tmpk3x9_q2a.zip";
        PutObject "dlhub-anl"
          "servables/1b4e28ba-2fa1-11d2-883f-0016d3cca427/tmpk3x9_q2a.zip"
          "public-read" [Byte.x50; Byte.x4b];
        Printed "Publication error: An error occurred (InvalidAccessKeyId) when calling the PutObject operation: The AWS Access Key Id you provided does not exist in our records."].
Proof.
  split; [exact rejected_upload_raises|].
  split; [vm_compute; reflexivity|].
  assert (Hev : events_since empty_world
                  (fst (DLHubClient._stage_data invalid_credentials_env sample_model
                          empty_world))
                = [Printed "Uploading: /tmp/tmpk3x9_q2a.zip";
                   PutObject "dlhub-anl"
                     "servables/1b4e28ba-2fa1-11d2-883f-0016d3cca427/tmpk3x9_q2a.zip"
                     "public-read" [Byte.x50; Byte.x4b];
                   Printed "Publication error: An error occurred (InvalidAccessKeyId) when calling the PutObject operation: The AWS Access Key Id you provided does not exist in our records."])
    by (vm_compute; reflexivity).
  split; [|exact Hev].
  rewrite Hev. intros [H | [H | [H | []]]]; discriminate.
Qed.

(** ** Publication: [publish_servable] *)

(** Once the metadata is serialized, a staging that yields no reference
    ends the publication with [None] in the world staging left. *)
Lemma publish_without_reference (E : env) (m : model) (w w' : world)
    (md : value) (ref : option string) :
  to_dict m true = Return md ->
  DLHubClient._stage_data E m w = (w', Return ref) ->
  ref = None \/ ref = Some "" ->
  DLHubClient.publish_servable E m w = (w', Return VNone)
  /\ requests (events_since w w') = [].
Proof.
  intros Hmd Hs Href. split.
  - unfold DLHubClient.publish_servable, bind, of_outcome.
    rewrite Hmd, Hs. destruct Href as [-> | ->]; reflexivity.
  - destruct (stage_events E m w w' _ Hs) as (evs & Htrace & Hevs).
    rewrite (events_since_app _ _ _ Htrace).
    apply requests_of_stage_events, Hevs.
Qed.

(** C1. For every model whose metadata serializes: if [_stage_data]
    returns no reference ([None] or the empty string), [publish_servable]
    returns [None] and the call issued no HTTP request, hence no
    [post('publish', ...)]; in particular this is what happens when the
    storage client raises [NoCredentialsError] during staging. *)
Theorem publish_aborts_without_reference (E : env) (m : model) (w : world)
    (md : value) :
  to_dict m true = Return md ->
  (forall w' ref,
      DLHubClient._stage_data E m w = (w', Return ref) ->
      ref = None \/ ref = Some "" ->
      DLHubClient.publish_servable E m w = (w', Return VNone)
      /\ requests (events_since w w') = [])
  /\ (upload_raises E m w NoCredentialsError ->
      exists w',
        DLHubClient.publish_servable E m w = (w', Return VNone)
        /\ requests (events_since w w') = []).
Proof.
  intros Hmd. split.
  - intros w' ref Hs Href. exact (publish_without_reference E m w w' md ref Hmd Hs Href).
  - intros Hup.
    destruct (stage_data_upload_raises E m w NoCredentialsError Hup eq_refl)
      as (fs & body & line & Hs & _).
    eexists. exact (publish_without_reference E m w _ md None Hmd Hs (or_introl eq_refl)).
Qed.

Lemma publish_aborts_without_reference_witness :
  exists w',
    DLHubClient.publish_servable no_credentials_env sample_model empty_world
    = (w', Return VNone)
    /\ requests (events_since empty_world w') = [].
Proof.
  exact (proj2 (publish_aborts_without_reference no_credentials_env sample_model
                  empty_world sample_metadata eq_refl)
           sample_upload_raises).
Defined.

(** C10. The model is serialized before anything else: when
    [to_dict(simplify_paths=True)] raises (the input and output descriptors
    are unset), [publish_servable] raises the same error in an unchanged
    world: no temporary archive, no upload, no HTTP request. *)
Theorem publish_serializes_first (E : env) (m : model) (w : world) (e : exn) :
  to_dict m true = Raise e ->
  DLHubClient.publish_servable E m w = (w, Raise e).
Proof.
  intros Hmd. unfold DLHubClient.publish_servable, bind, of_outcome.
  rewrite Hmd. reflexivity.
Qed.

Lemma publish_serializes_first_witness :
  DLHubClient.publish_servable sample_env undescribed_model empty_world
  = (empty_world, Raise (ValueError "Inputs must be defined")).
Proof.
  apply (publish_serializes_first sample_env undescribed_model empty_world
           (ValueError "Inputs must be defined")).
  reflexivity.
Defined.

(** C9. If the [try] block of [_stage_data] raises an instance of
    [Exception] while the archive file exists (packaging failed after
    creating it, or the upload failed), the exception does not leave
    [_stage_data]: it returns [None], whether the exception is a
    [NoCredentialsError] or any other, and [publish_servable] returns
    [None] as well.  The two kinds of staging failure give the caller the
    same return value. *)
Theorem stage_data_swallows_exceptions (E : env) (m : model) (w w1 : world)
    (e : exn) :
  DLHubClient.stage_body E m (dest_uuid E) (zip_filename E) (placeholder_removed E w)
  = (w1, Raise e) ->
  is_Some (files w1 !! zip_filename E) ->
  is_Exception e = true ->
  exists w',
    DLHubClient._stage_data E m w = (w', Return None)
    /\ (forall md,
          to_dict m true = Return md ->
          DLHubClient.publish_servable E m w = (w', Return VNone)
          /\ forall E0 m0 w0 md0,
               to_dict m0 true = Return md0 ->
               upload_raises E0 m0 w0 NoCredentialsError ->
               snd (DLHubClient.publish_servable E0 m0 w0)
               = snd (DLHubClient.publish_servable E m w)).
Proof.
  intros Hbody Harchive He.
  destruct (stage_handler_swallows e w1 He) as (line & Hh & _).
  assert (Hg : stage_guarded E m (placeholder_removed E w)
               = (log (Printed line) w1, Return None)).
  { unfold stage_guarded, try_except. rewrite Hbody. exact Hh. }
  pose proof (stage_data_archive_present E m w _ _ Hg Harchive) as Hs.
  eexists. split; [exact Hs|].
  intros md Hmd.
  destruct (publish_without_reference E m w _ md None Hmd Hs (or_introl eq_refl))
    as [Hpub _].
  split; [exact Hpub|].
  intros E0 m0 w0 md0 Hmd0 Hup.
  destruct (stage_data_upload_raises E0 m0 w0 NoCredentialsError Hup eq_refl)
    as (fs & body & line0 & Hs0 & _).
  destruct (publish_without_reference E0 m0 w0 _ md0 None Hmd0 Hs0 (or_introl eq_refl))
    as [Hpub0 _].
  rewrite Hpub, Hpub0. reflexivity.
Qed.

Lemma stage_data_swallows_exceptions_witness :
  exists w',
    DLHubClient._stage_data sample_env half_packed_model empty_world
    = (w', Return None)
    /\ DLHubClient.publish_servable sample_env half_packed_model empty_world
       = (w', Return VNone).
Proof.
  destruct (stage_data_swallows_exceptions sample_env half_packed_model empty_world
              (with_files (<[zip_filename sample_env := []]> ∅) empty_world)
              (FileNotFoundError "model.pkl") eq_refl
              (ex_intro _ [] eq_refl) eq_refl) as (w' & Hs & Hpub).
  exists w'. split; [exact Hs|].
  exact (proj1 (Hpub sample_metadata eq_refl)).
Defined.

(** The failing side of staging: when packaging raises before the archive
    exists, the [finally] clause has nothing to remove and [os.unlink]
    raises [FileNotFoundError], which leaves [_stage_data] in place of the
    handled error. *)
Lemma stage_data_unlink_raises (E : env) (m : model) (w w1 : world) (e : exn) :
  DLHubClient.stage_body E m (dest_uuid E) (zip_filename E) (placeholder_removed E w)
  = (w1, Raise e) ->
  files w1 !! zip_filename E = None ->
  exists w',
    DLHubClient._stage_data E m w
    = (w', Raise (FileNotFoundError (zip_filename E))).
Proof.
  intros Hbody Harchive.
  destruct (stage_guarded E m (placeholder_removed E w)) as [w2 r] eqn:Hg.
  assert (Hfiles : files w2 = files w1).
  { unfold stage_guarded, try_except in Hg. rewrite Hbody in Hg.
    unfold DLHubClient.stage_handler, bind, print, ret, raise in Hg.
    repeat case_match; simplify_eq; reflexivity. }
  exists w2. apply (stage_data_archive_absent E m w w2 r Hg).
  rewrite Hfiles. exact Harchive.
Qed.

(** C2, at the input where it fails.  The model's packaging raises
    [PermissionError] before the archive is opened for writing: the
    general handler prints the error, then the [os.unlink] of the [finally]
    clause raises [FileNotFoundError] for the archive that was never made,
    and this exception leaves [_stage_data].  The deletion fails. *)
Theorem stage_data_cleanup_raises :
  DLHubClient._stage_data sample_env unpackable_model empty_world
  = ({| files := ∅;
        trace := [Printed "Publication error: [Errno 13] Permission denied"] |},
     Raise (FileNotFoundError "/tmp/tmpk3x9_q2a.zip")).
Proof. vm_compute. reflexivity. Qed.

Lemma stage_events_not_validated (evs : list event) (md : value) (s : string) :
  forallb is_stage_event evs = true -> ~ In (Validated md s) evs.
Proof.
  intros H Hin. rewrite forallb_forall in H. specialize (H _ Hin). discriminate.
Qed.

(** Subscripting reads and writes Python objects only: the world stays. *)
Lemma getitem_pure (obj : value) (key : string) (w : world) :
  exists o, getitem obj key w = (w, o).
Proof. unfold getitem, ret, raise. repeat case_match; eauto. Qed.

Lemma set_transfer_method_pure (metadata : value) (path : string) (w : world) :
  exists o, DLHubClient.set_transfer_method metadata path w = (w, o).
Proof.
  unfold DLHubClient.set_transfer_method, bind, getitem, setitem, ret, raise.
  repeat case_match; simplify_eq; eauto.
Qed.

(** C3. In every execution of [publish_servable] in which the schema
    validator is called, staging has returned a non-empty reference before:
    the events of the call are those of staging (prints and the upload,
    no validation), then the validation, then the rest.  When that
    validation fails, its error leaves [publish_servable], nothing follows
    the validation, and the call issued no HTTP request: [post('publish',
    ...)] is not invoked. *)
Theorem publish_validates_after_staging (E : env) (m : model) (w w' : world)
    (r : outcome value) (md : value) (s : string) :
  DLHubClient.publish_servable E m w = (w', r) ->
  In (Validated md s) (events_since w w') ->
  exists w1 ref rest,
    DLHubClient._stage_data E m w = (w1, Return (Some ref))
    /\ ref <> ""
    /\ forallb is_stage_event (events_since w w1) = true
    /\ events_since w w' = (events_since w w1 ++ Validated md s :: rest)%list
    /\ (forall e,
          schema_check E md s = Some e ->
          r = Raise e /\ rest = [] /\ requests (events_since w w') = []).
Proof.
  intros Hpub Hin.
  unfold DLHubClient.publish_servable, bind, of_outcome in Hpub.
  destruct (to_dict m true) as [md0|e0].
  2:{ injection Hpub as <- _. unfold events_since in Hin.
      rewrite drop_all in Hin. destruct Hin. }
  destruct (DLHubClient._stage_data E m w) as [w1 o] eqn:Hs.
  destruct (stage_events E m w w1 o Hs) as (evs & Htrace & Hevs).
  pose proof (events_since_app _ _ _ Htrace) as Hev1.
  pose proof (stage_events_not_validated evs md s Hevs) as Hnot.
  destruct o as [[ref|]|e0].
  2,3: injection Hpub as <- _; rewrite Hev1 in Hin; destruct (Hnot Hin).
  destruct (String.eqb ref "") eqn:Hne.
  { injection Hpub as <- _. rewrite Hev1 in Hin. destruct (Hnot Hin). }
  apply String.eqb_neq in Hne.
  exists w1, ref.
  destruct (set_transfer_method_pure md0 ref w1) as [o1 Hset].
  rewrite Hset in Hpub. destruct o1 as [md1|e1].
  2:{ injection Hpub as <- _. rewrite Hev1 in Hin. destruct (Hnot Hin). }
  unfold validate_against_dlhub_schema in Hpub.
  destruct (schema_check E md1 "servable") as [e1|] eqn:Hcheck.
  - (* the validator raises *)
    injection Hpub as <- <-.
    assert (Hev : events_since w (log (Validated md1 "servable") w1)
                  = (evs ++ [Validated md1 "servable"])%list).
    { apply events_since_app. cbn [trace log]. rewrite Htrace, <- app_assoc. reflexivity. }
    rewrite Hev in Hin |- *. rewrite Hev1.
    apply in_app_or in Hin as [Hin | [Heq | []]]; [destruct (Hnot Hin)|].
    injection Heq as <- <-.
    exists []. repeat split; try assumption.
    + congruence.
    + unfold requests. rewrite List.filter_app.
      change (List.filter is_request evs) with (requests evs).
      rewrite (requests_of_stage_events evs Hevs). reflexivity.
  - (* the validator accepts: the request is posted *)
    unfold post in Hpub.
    set (w4 := log (Posted "publish" md1) (log (Validated md1 "servable") w1)) in *.
    assert (Hw' : w' = w4).
    { destruct (http_post E "publish" md1) as [resp|e2]; [|congruence].
      destruct (getitem_pure (data resp) "task_id" w4) as [o2 Hget].
      rewrite Hget in Hpub. unfold ret in Hpub.
      destruct o2; congruence. }
    subst w'.
    assert (Hev : events_since w w4
                  = (evs ++ [Validated md1 "servable"; Posted "publish" md1])%list).
    { apply events_since_app. subst w4. cbn [trace log].
      rewrite Htrace, <- !app_assoc. reflexivity. }
    rewrite Hev in Hin |- *. rewrite Hev1.
    apply in_app_or in Hin as [Hin | [Heq | [Heq | []]]];
      [destruct (Hnot Hin) | | discriminate].
    injection Heq as <- <-.
    exists [Posted "publish" md1]. repeat split; try assumption; congruence.
Qed.

Lemma publish_validates_after_staging_witness :
  exists w1 ref rest,
    DLHubClient._stage_data rejecting_env sample_model empty_world
    = (w1, Return (Some ref))
    /\ events_since empty_world
         (fst (DLHubClient.publish_servable rejecting_env sample_model empty_world))
       = (events_since empty_world w1
            ++ Validated
                 (VDict
                    [("datacite", VDict [("creators", VList []); ("titles", VList [VNone]);
                                         ("publisher", VStr "DLHub");
                                         ("resourceType", VStr "InteractiveResource")]);
                     ("dlhub", VDict [("version", VStr "0.1"); ("domain", VNone);
                                      ("visible_to", VList [VStr "public"]);
                                      ("transfer_method",
                                       VDict [("S3", VStr "s3://dlhub-anl/servables/1b4e28ba-2fa1-11d2-883f-0016d3cca427")])]);
                     ("servable", VDict [("langugage", VStr "python");
                                         ("type", VStr "py_static_method")])])
                 "servable" :: rest)%list
    /\ rest = [].
Proof.
  destruct (publish_validates_after_staging rejecting_env sample_model empty_world
              (fst (DLHubClient.publish_servable rejecting_env sample_model empty_world))
              (snd (DLHubClient.publish_servable rejecting_env sample_model empty_world))
              _ "servable" eq_refl
              (or_intror (or_intror (or_introl eq_refl))))
    as (w1 & ref & rest & Hs & _ & _ & Hev & Hfail).
  exists w1, ref, rest. split; [exact Hs|]. split; [exact Hev|].
  exact (proj1 (proj2 (Hfail _ eq_refl))).
Defined.

(** * Further properties of the client *)

(** ** Staging *)

(** A reference comes back only along one path: packaging raised nothing,
    the archive could be opened and the upload raised nothing. *)
Lemma stage_data_reference_inv (E : env) (m : model) (w w' : world) (ref : string) :
  DLHubClient._stage_data E m w = (w', Return (Some ref)) ->
  exists fs body,
    get_zip_file m (zip_filename E) (files (placeholder_removed E w)) = (fs, None)
    /\ fs !! zip_filename E = Some body
    /\ s3_put E DLHubClient.bucket_name (destpath E) "public-read" body = None.
Proof.
  intros H. rewrite stage_data_unfold in H. unfold_stage. fold (destpath E) in H.
  repeat case_match; simplify_eq; cbn [files trace with_files log] in *.
  all: match goal with
       | Hp : s3_put _ _ _ _ ?b = None, Hb : _ !! _ = Some ?b |- _ =>
           eexists _, b; split; [reflexivity|]; split; [exact Hb | exact Hp]
       end.
Qed.

(** X1. [_stage_data] returns a reference if and only if packaging raised
    nothing, left a readable archive and the upload raised nothing. *)
Theorem stage_data_reference_iff (E : env) (m : model) (w : world) :
  (exists w' ref, DLHubClient._stage_data E m w = (w', Return (Some ref)))
  <-> (exists fs body,
         get_zip_file m (zip_filename E) (files (placeholder_removed E w)) = (fs, None)
         /\ fs !! zip_filename E = Some body
         /\ s3_put E DLHubClient.bucket_name (destpath E) "public-read" body = None).
Proof.
  split.
  - intros (w' & ref & H). exact (stage_data_reference_inv E m w w' ref H).
  - intros (fs & body & Hzip & Hbody & Hput).
    eexists _, _. exact (stage_data_succeeds E m w fs body Hzip Hbody Hput).
Qed.

(** X2. When [_stage_data] returns a reference, the body it uploaded is
    the content packaging wrote under the archive's name, byte for byte. *)
Theorem stage_data_uploads_archive (E : env) (m : model) (w w' : world)
    (ref : string) :
  DLHubClient._stage_data E m w = (w', Return (Some ref)) ->
  exists body,
    packaged_files E m w !! zip_filename E = Some body
    /\ uploads (events_since w w')
       = [PutObject DLHubClient.bucket_name (destpath E) "public-read" body].
Proof.
  intros H.
  destruct (stage_data_reference_inv E m w w' ref H) as (fs & body & Hzip & Hbody & Hput).
  rewrite (stage_data_succeeds E m w fs body Hzip Hbody Hput) in H.
  injection H as <- _.
  exists body. split.
  - unfold packaged_files. rewrite Hzip. exact Hbody.
  - erewrite events_since_app by reflexivity. reflexivity.
Qed.

Lemma stage_data_uploads_archive_witness :
  exists body,
    packaged_files sample_env sample_model empty_world !! zip_filename sample_env
    = Some body
    /\ uploads (events_since empty_world
                  (fst (DLHubClient._stage_data sample_env sample_model empty_world)))
       = [PutObject DLHubClient.bucket_name (destpath sample_env) "public-read" body].
Proof.
  exact (stage_data_uploads_archive sample_env sample_model empty_world _ _ eq_refl).
Defined.

(** X3. Whatever happens, [_stage_data] uploads at most one object. *)
Theorem stage_data_uploads_at_most_once (E : env) (m : model) (w : world) :
  length (uploads (events_since w (fst (DLHubClient._stage_data E m w)))) <= 1.
Proof.
  destruct (DLHubClient._stage_data E m w) as [w' r] eqn:H. cbn [fst].
  rewrite stage_data_unfold in H. unfold_stage.
  repeat case_match; simplify_eq; unfold events_since;
    cbn [files trace with_files log]; rewrite <- ?app_assoc;
    first [ rewrite drop_app_length | rewrite drop_all ]; cbn; lia.
Qed.

(** X4. The local files after [_stage_data], on every path, are the files
    packaging left, without the archive: staging itself touches no other
    file. *)
Theorem stage_data_files (E : env) (m : model) (w : world) :
  files (fst (DLHubClient._stage_data E m w))
  = delete (zip_filename E) (packaged_files E m w).
Proof.
  unfold packaged_files.
  destruct (DLHubClient._stage_data E m w) as [w' r] eqn:H. cbn [fst].
  rewrite stage_data_unfold in H. unfold_stage.
  repeat case_match; simplify_eq; cbn [files trace with_files log fst] in *;
    first [ reflexivity | symmetry; apply delete_id; assumption ].
Qed.

(** X5. [_stage_data] never fails silently: whenever it returns [None],
    the last thing it did on standard output is print a diagnostic, either
    the credentials message or a line [Publication error: <str(e)>]. *)
Theorem stage_data_none_is_reported (E : env) (m : model) (w w' : world) :
  DLHubClient._stage_data E m w = (w', Return None) ->
  exists evs line,
    events_since w w' = (evs ++ [Printed line])%list
    /\ (line = DLHubClient.credentials_message
        \/ exists e, line = "Publication error: " ++ exn_str e).
Proof.
  intros H. rewrite stage_data_unfold in H. unfold_stage.
  repeat case_match; simplify_eq; unfold events_since;
    cbn [files trace with_files log]; rewrite <- ?app_assoc, drop_app_length.
  all: first
         [ exists []; eexists; split; [reflexivity|]; first [left; reflexivity | right; eexists; reflexivity]
         | eexists [_]; eexists; split; [reflexivity|]; first [left; reflexivity | right; eexists; reflexivity]
         | eexists [_; _]; eexists; split; [reflexivity|]; first [left; reflexivity | right; eexists; reflexivity] ].
Qed.

Lemma stage_data_none_is_reported_witness :
  exists evs line,
    events_since empty_world
      (fst (DLHubClient._stage_data sample_env half_packed_model empty_world))
    = (evs ++ [Printed line])%list
    /\ (line = DLHubClient.credentials_message
        \/ exists e, line = "Publication error: " ++ exn_str e).
Proof.
  exact (stage_data_none_is_reported sample_env half_packed_model empty_world _ eq_refl).
Defined.

(** X6. An exception that is not an instance of [Exception] (a
    [KeyboardInterrupt] during the upload, say) is not swallowed: it
    leaves [_stage_data], nothing is printed for it, and the archive is
    removed all the same. *)
Theorem stage_data_signal_propagates (E : env) (m : model) (w : world)
    (cls : string) :
  upload_raises E m w (Signal cls) ->
  exists w' body,
    DLHubClient._stage_data E m w = (w', Raise (Signal cls))
    /\ files w' !! zip_filename E = None
    /\ events_since w w'
       = [Printed ("Uploading: " ++ zip_filename E);
          PutObject DLHubClient.bucket_name (destpath E) "public-read" body].
Proof.
  intros (fs & body & Hzip & Hbody & Hput).
  pose proof (stage_guarded_upload E m w fs body Hzip Hbody) as Hg.
  cbv zeta in Hg. rewrite Hput in Hg.
  unfold DLHubClient.stage_handler, raise in Hg. cbn [is_NoCredentialsError is_Exception] in Hg.
  assert (Harchive : is_Some (fs !! zip_filename E)) by (rewrite Hbody; eauto).
  pose proof (stage_data_archive_present E m w _ _ Hg Harchive) as Hs.
  eexists _, body. split; [exact Hs|]. split.
  - cbn [files with_files]. apply lookup_delete_eq.
  - apply events_since_app. unfold placeholder_removed.
    cbn [trace with_files log]. rewrite <- !app_assoc. reflexivity.
Qed.

Lemma interrupted_upload_raises :
  upload_raises interrupted_env sample_model empty_world (Signal "KeyboardInterrupt").
Proof.
  exists (<[zip_filename interrupted_env := [Byte.x50; Byte.x4b]]> ∅),
         [Byte.x50; Byte.x4b].
  split; [|split]; reflexivity.
Defined.

Lemma stage_data_signal_propagates_witness :
  exists w' body,
    DLHubClient._stage_data interrupted_env sample_model empty_world
    = (w', Raise (Signal "KeyboardInterrupt"))
    /\ files w' !! zip_filename interrupted_env = None
    /\ events_since empty_world w'
       = [Printed ("Uploading: " ++ zip_filename interrupted_env);
          PutObject DLHubClient.bucket_name (destpath interrupted_env) "public-read" body].
Proof.
  exact (stage_data_signal_propagates interrupted_env sample_model empty_world
           "KeyboardInterrupt" interrupted_upload_raises).
Defined.

(** X7. When packaging returns normally but no file exists under the
    archive's name, nothing is uploaded: [open] fails, the general handler
    reports it, and the [os.unlink] of the [finally] clause then raises
    [FileNotFoundError], which is what leaves [_stage_data]. *)
Theorem stage_data_missing_archive (E : env) (m : model) (w : world)
    (fs : gmap string (list Byte.byte)) :
  get_zip_file m (zip_filename E) (files (placeholder_removed E w)) = (fs, None) ->
  fs !! zip_filename E = None ->
  exists w',
    DLHubClient._stage_data E m w = (w', Raise (FileNotFoundError (zip_filename E)))
    /\ events_since w w'
       = [Printed ("Uploading: " ++ zip_filename E);
          Printed ("Publication error: "
                   ++ exn_str (FileNotFoundError (zip_filename E)))].
Proof.
  intros Hzip Hnone.
  rewrite stage_data_unfold. unfold_stage.
  rewrite Hzip. cbn [files with_files log]. rewrite Hnone.
  cbn [is_NoCredentialsError is_Exception files with_files log]. rewrite Hnone.
  eexists. split; [reflexivity|].
  apply events_since_app. cbn [trace with_files log].
  rewrite <- !app_assoc. reflexivity.
Qed.

Lemma stage_data_missing_archive_witness :
  exists w',
    DLHubClient._stage_data sample_env idle_model empty_world
    = (w', Raise (FileNotFoundError "/tmp/tmpk3x9_q2a.zip")).
Proof.
  destruct (stage_data_missing_archive sample_env idle_model empty_world ∅
              eq_refl eq_refl) as (w' & H & _).
  exists w'. exact H.
Defined.

(** ** Publication *)

Lemma stage_events_not_posted (evs : list event) (p : string) (b : value) :
  forallb is_stage_event evs = true -> ~ In (Posted p b) evs.
Proof.
  intros H Hin. rewrite forallb_forall in H. specialize (H _ Hin). discriminate.
Qed.

(** A reference handed back by staging is never the empty string. *)
Lemma stage_reference_nonempty (E : env) (m : model) (w w' : world) (ref : string) :
  DLHubClient._stage_data E m w = (w', Return (Some ref)) -> ref <> "".
Proof.
  intros H.
  destruct (stage_data_reference_inv E m w w' ref H) as (fs & body & Hzip & Hbody & Hput).
  rewrite (stage_data_succeeds E m w fs body Hzip Hbody Hput) in H.
  injection H as _ <-. discriminate.
Qed.

(** With serialized metadata and a reference, [publish_servable] is the
    run of [submit] in the world staging left. *)
Lemma publish_after_staging (E : env) (m : model) (w w1 : world) (md : value)
    (ref : string) :
  to_dict m true = Return md ->
  DLHubClient._stage_data E m w = (w1, Return (Some ref)) ->
  DLHubClient.publish_servable E m w = submit E md ref w1.
Proof.
  intros Hmd Hs.
  pose proof (stage_reference_nonempty E m w w1 ref Hs) as Hne.
  apply String.eqb_neq in Hne.
  unfold DLHubClient.publish_servable, bind at 1 2, of_outcome.
  rewrite Hmd, Hs, Hne. reflexivity.
Qed.

(** The steps after staging leave the local files alone. *)
Lemma submit_files (E : env) (md : value) (ref : string) (w : world) :
  files (fst (submit E md ref w)) = files w.
Proof.
  unfold submit, bind.
  destruct (set_transfer_method_pure md ref w) as [o Hset]. rewrite Hset.
  destruct o as [md'|e]; [|reflexivity].
  unfold validate_against_dlhub_schema, post.
  destruct (schema_check E md' "servable"); [reflexivity|].
  destruct (http_post E "publish" md') as [resp|e]; [|reflexivity].
  match goal with
  | |- context [getitem ?o ?k ?w0] =>
      destruct (getitem_pure o k w0) as [o2 Hget]; rewrite Hget
  end.
  destruct o2; reflexivity.
Qed.

(** X8. Every request [publish_servable] posts goes to ['publish'], and
    its body is exactly the metadata that the validator has just accepted:
    the serialized metadata with the staged reference injected.  The call
    posts at most once, as its last act. *)
Theorem publish_posts_validated_metadata (E : env) (m : model) (w w' : world)
    (r : outcome value) (p : string) (b : value) :
  DLHubClient.publish_servable E m w = (w', r) ->
  In (Posted p b) (events_since w w') ->
  exists md w1 ref,
    to_dict m true = Return md
    /\ DLHubClient._stage_data E m w = (w1, Return (Some ref))
    /\ DLHubClient.set_transfer_method md ref w1 = (w1, Return b)
    /\ schema_check E b "servable" = None
    /\ p = "publish"
    /\ events_since w w'
       = (events_since w w1 ++ [Validated b "servable"; Posted "publish" b])%list.
Proof.
  intros Hpub Hin.
  destruct (to_dict m true) as [md|e0] eqn:Hmd.
  2:{ unfold DLHubClient.publish_servable, bind, of_outcome in Hpub.
      rewrite Hmd in Hpub. injection Hpub as <- _.
      unfold events_since in Hin. rewrite drop_all in Hin. destruct Hin. }
  destruct (DLHubClient._stage_data E m w) as [w1 o] eqn:Hs.
  destruct (stage_events E m w w1 o Hs) as (evs & Htrace & Hevs).
  pose proof (events_since_app _ _ _ Htrace) as Hev1.
  pose proof (stage_events_not_posted evs p b Hevs) as Hnot.
  destruct o as [[ref|]|e0].
  2,3: unfold DLHubClient.publish_servable, bind, of_outcome in Hpub;
       rewrite Hmd, Hs in Hpub; injection Hpub as <- _;
       rewrite Hev1 in Hin; destruct (Hnot Hin).
  rewrite (publish_after_staging E m w w1 md ref Hmd Hs) in Hpub.
  exists md, w1, ref. split; [reflexivity|]. split; [reflexivity|].
  unfold submit, bind in Hpub.
  destruct (set_transfer_method_pure md ref w1) as [o1 Hset].
  rewrite Hset in Hpub. destruct o1 as [md1|e1].
  2:{ injection Hpub as <- _. rewrite Hev1 in Hin. destruct (Hnot Hin). }
  unfold validate_against_dlhub_schema in Hpub.
  destruct (schema_check E md1 "servable") as [e1|] eqn:Hcheck.
  { injection Hpub as <- _.
    erewrite events_since_app in Hin
      by (cbn [trace log]; rewrite Htrace, <- app_assoc; reflexivity).
    apply in_app_or in Hin as [Hin | [Heq | []]]; [destruct (Hnot Hin)|discriminate]. }
  unfold post in Hpub.
  set (w4 := log (Posted "publish" md1) (log (Validated md1 "servable") w1)) in *.
  assert (Hw' : w' = w4).
  { destruct (http_post E "publish" md1) as [resp|e2]; [|congruence].
    destruct (getitem_pure (data resp) "task_id" w4) as [o2 Hget].
    rewrite Hget in Hpub. unfold ret in Hpub. destruct o2; congruence. }
  subst w'.
  assert (Hev : events_since w w4
                = (evs ++ [Validated md1 "servable"; Posted "publish" md1])%list).
  { apply events_since_app. subst w4. cbn [trace log].
    rewrite Htrace, <- !app_assoc. reflexivity. }
  rewrite Hev in Hin |- *. rewrite Hev1.
  apply in_app_or in Hin as [Hin | [Heq | [Heq | []]]];
    [destruct (Hnot Hin) | discriminate | ].
  injection Heq as <- <-.
  repeat split; assumption.
Qed.

Lemma publish_posts_validated_metadata_witness :
  exists md w1 ref b,
    to_dict sample_model true = Return md
    /\ DLHubClient._stage_data sample_env sample_model empty_world
       = (w1, Return (Some ref))
    /\ DLHubClient.set_transfer_method md ref w1 = (w1, Return b)
    /\ schema_check sample_env b "servable" = None.
Proof.
  destruct (publish_posts_validated_metadata sample_env sample_model empty_world
              (fst (DLHubClient.publish_servable sample_env sample_model empty_world))
              (snd (DLHubClient.publish_servable sample_env sample_model empty_world))
              "publish" _ eq_refl
              (or_intror (or_intror (or_intror (or_introl eq_refl)))))
    as (md & w1 & ref & Hmd & Hs & Hset & Hcheck & _).
  exists md, w1, ref. eexists. repeat split; eassumption.
Defined.

(** ** Dictionaries and the injected reference *)

Lemma assoc_get_set_eq (key : string) (v : value) (items : list (string * value)) :
  assoc_get key (assoc_set key v items) = Some v.
Proof.
  induction items as [|[k old] items IH]; cbn [assoc_set assoc_get].
  - rewrite String.eqb_refl. reflexivity.
  - destruct (String.eqb k key) eqn:Hk; cbn [assoc_get]; rewrite Hk; [reflexivity|exact IH].
Qed.

Lemma assoc_get_set_ne (key key' : string) (v : value) (items : list (string * value)) :
  key' <> key ->
  assoc_get key' (assoc_set key v items) = assoc_get key' items.
Proof.
  intros Hne. induction items as [|[k old] items IH]; cbn [assoc_set assoc_get].
  - apply String.eqb_neq in Hne. rewrite String.eqb_sym, Hne. reflexivity.
  - destruct (String.eqb k key) eqn:Hk; cbn [assoc_get].
    + apply String.eqb_eq in Hk. subst k.
      assert (Hk' : String.eqb key key' = false)
        by (apply String.eqb_neq; congruence).
      rewrite Hk'. reflexivity.
    + destruct (String.eqb k key'); [reflexivity|exact IH].
Qed.

(** Assigning a key changes no other key and adds none but itself. *)
Lemma assoc_set_keys (key : string) (v : value) (items : list (string * value)) :
  map fst (assoc_set key v items)
  = match assoc_get key items with
    | Some _ => map fst items
    | None => (map fst items ++ [key])%list
    end.
Proof.
  induction items as [|[k old] items IH]; cbn [assoc_set assoc_get map]; [reflexivity|].
  destruct (String.eqb k key) eqn:Hk; cbn [map fst]; [reflexivity|].
  rewrite IH. destruct (assoc_get key items); reflexivity.
Qed.

(** X9. When the injection [metadata['dlhub']['transfer_method'] = {'S3':
    path}] succeeds, the metadata and its ['dlhub'] block were
    dictionaries, the new block maps ['transfer_method'] to [{'S3': path}],
    and every other entry of the block and of the metadata reads as before. *)
Theorem set_transfer_method_lookup (metadata metadata' : value) (path : string)
    (w w' : world) :
  DLHubClient.set_transfer_method metadata path w = (w', Return metadata') ->
  exists items block items' block',
    metadata = VDict items
    /\ assoc_get "dlhub" items = Some (VDict block)
    /\ metadata' = VDict items'
    /\ assoc_get "dlhub" items' = Some (VDict block')
    /\ assoc_get "transfer_method" block' = Some (VDict [("S3", VStr path)])
    /\ (forall k, k <> "transfer_method" -> assoc_get k block' = assoc_get k block)
    /\ (forall k, k <> "dlhub" -> assoc_get k items' = assoc_get k items)
    /\ map fst items' = map fst items.
Proof.
  unfold DLHubClient.set_transfer_method, bind, getitem, setitem, ret, raise.
  intros H.
  destruct metadata as [| | | |?|items]; try discriminate.
  destruct (assoc_get "dlhub" items) as [dl|] eqn:Hdl; [|discriminate].
  destruct dl as [| | | |?|block]; try discriminate.
  injection H as _ <-.
  exists items, block. eexists _, _.
  split; [reflexivity|]. split; [exact Hdl|]. split; [reflexivity|].
  split; [apply assoc_get_set_eq|].
  split; [apply assoc_get_set_eq|].
  split; [intros k Hk; apply assoc_get_set_ne, Hk|].
  split; [intros k Hk; apply assoc_get_set_ne, Hk|].
  rewrite assoc_set_keys, Hdl. reflexivity.
Qed.

Lemma set_transfer_method_lookup_witness :
  exists items block items' block',
    sample_metadata = VDict items
    /\ assoc_get "dlhub" items = Some (VDict block)
    /\ assoc_get "dlhub" items' = Some (VDict block')
    /\ assoc_get "transfer_method" block' = Some (VDict [("S3", VStr "s3://dlhub-anl/servables/x")])
    /\ assoc_get "version" block' = assoc_get "version" block.
Proof.
  destruct (set_transfer_method_lookup sample_metadata _ "s3://dlhub-anl/servables/x"
              empty_world _ eq_refl)
    as (items & block & items' & block' & H1 & H2 & _ & H4 & H5 & H6 & _).
  exists items, block, items', block'.
  repeat split; try assumption. apply H6. discriminate.
Defined.

Lemma assoc_set_set (key : string) (v1 v2 : value) (items : list (string * value)) :
  assoc_set key v2 (assoc_set key v1 items) = assoc_set key v2 items.
Proof.
  induction items as [|[k old] items IH]; cbn [assoc_set].
  - rewrite String.eqb_refl. reflexivity.
  - destruct (String.eqb k key) eqn:Hk; cbn [assoc_set]; rewrite Hk; [reflexivity|].
    rewrite IH. reflexivity.
Qed.

(** X10. Injecting a reference into metadata that already carries one
    replaces it: injecting [path1] and then [path2] gives what injecting
    [path2] alone gives, so a ['transfer_method'] entry never piles up. *)
Theorem set_transfer_method_overwrites (metadata metadata1 : value)
    (path1 path2 : string) (w : world) :
  DLHubClient.set_transfer_method metadata path1 w = (w, Return metadata1) ->
  DLHubClient.set_transfer_method metadata1 path2 w
  = DLHubClient.set_transfer_method metadata path2 w.
Proof.
  unfold DLHubClient.set_transfer_method, bind, getitem, setitem, ret, raise.
  intros H.
  destruct metadata as [| | | |?|items]; try discriminate.
  destruct (assoc_get "dlhub" items) as [dl|] eqn:Hdl; [|discriminate].
  destruct dl as [| | | |?|block]; try discriminate.
  injection H as <-.
  rewrite assoc_get_set_eq, !assoc_set_set. reflexivity.
Qed.

Lemma set_transfer_method_overwrites_witness :
  DLHubClient.set_transfer_method
    (VDict [("datacite", VDict []);
            ("dlhub", VDict [("version", VStr "0.1");
                             ("transfer_method", VDict [("S3", VStr "s3://old")])])])
    "s3://new" empty_world
  = DLHubClient.set_transfer_method
      (VDict [("datacite", VDict []); ("dlhub", VDict [("version", VStr "0.1")])])
      "s3://new" empty_world.
Proof.
  apply (set_transfer_method_overwrites
           (VDict [("datacite", VDict []); ("dlhub", VDict [("version", VStr "0.1")])])
           _ "s3://old" "s3://new" empty_world).
  reflexivity.
Defined.

(** ** Publication, end to end *)

Lemma stage_data_success_events (E : env) (m : model) (w w' : world) (ref : string) :
  DLHubClient._stage_data E m w = (w', Return (Some ref)) ->
  exists body,
    events_since w w'
    = [Printed ("Uploading: " ++ zip_filename E);
       PutObject DLHubClient.bucket_name (destpath E) "public-read" body].
Proof.
  intros H.
  destruct (stage_data_reference_inv E m w w' ref H) as (fs & body & Hzip & Hbody & Hput).
  rewrite (stage_data_succeeds E m w fs body Hzip Hbody Hput) in H.
  injection H as <- _. exists body. apply events_since_app. reflexivity.
Qed.

(** X11. The success path of [publish_servable]: with a staged reference,
    metadata that takes the injection, a validator that accepts and a
    response that carries ['task_id'], the call returns that task id, after
    exactly the validation and the one [post] on top of staging. *)
Theorem publish_returns_task_id (E : env) (m : model) (w w1 : world)
    (md md' task_id : value) (ref : string) (resp : response)
    (items : list (string * value)) :
  to_dict m true = Return md ->
  DLHubClient._stage_data E m w = (w1, Return (Some ref)) ->
  DLHubClient.set_transfer_method md ref w1 = (w1, Return md') ->
  schema_check E md' "servable" = None ->
  http_post E "publish" md' = Return resp ->
  data resp = VDict items ->
  assoc_get "task_id" items = Some task_id ->
  DLHubClient.publish_servable E m w
  = (log (Posted "publish" md') (log (Validated md' "servable") w1),
     Return task_id).
Proof.
  intros Hmd Hs Hset Hcheck Hpost Hdata Hid.
  rewrite (publish_after_staging E m w w1 md ref Hmd Hs).
  unfold submit, bind. rewrite Hset.
  unfold validate_against_dlhub_schema. rewrite Hcheck.
  unfold post. rewrite Hpost.
  unfold getitem. rewrite Hdata, Hid. reflexivity.
Qed.

Lemma publish_returns_task_id_witness :
  DLHubClient.publish_servable sample_env sample_model empty_world
  = (log (Posted "publish" sample_staged_metadata)
       (log (Validated sample_staged_metadata "servable") sample_staged_world),
     Return (VStr "bf06d72e-0478-11e9-97fc-0a4dfa7e8a3e")).
Proof.
  apply (publish_returns_task_id sample_env sample_model empty_world
           sample_staged_world sample_metadata sample_staged_metadata
           (VStr "bf06d72e-0478-11e9-97fc-0a4dfa7e8a3e") sample_reference
           sample_response
           [("task_id", VStr "bf06d72e-0478-11e9-97fc-0a4dfa7e8a3e")]);
    vm_compute; reflexivity.
Defined.

(** X12. Metadata without a ['dlhub'] block makes [publish_servable] raise
    [KeyError('dlhub')], and only after staging: the archive has been
    uploaded by then, and nothing is validated or posted. *)
Theorem publish_missing_dlhub_block (E : env) (m : model) (w w1 : world)
    (items : list (string * value)) (ref : string) :
  to_dict m true = Return (VDict items) ->
  assoc_get "dlhub" items = None ->
  DLHubClient._stage_data E m w = (w1, Return (Some ref)) ->
  DLHubClient.publish_servable E m w = (w1, Raise (KeyError "dlhub"))
  /\ exists body,
       events_since w w1
       = [Printed ("Uploading: " ++ zip_filename E);
          PutObject DLHubClient.bucket_name (destpath E) "public-read" body].
Proof.
  intros Hmd Hnone Hs. split.
  - rewrite (publish_after_staging E m w w1 _ ref Hmd Hs).
    unfold submit, DLHubClient.set_transfer_method, bind, getitem.
    rewrite Hnone. reflexivity.
  - exact (stage_data_success_events E m w w1 ref Hs).
Qed.

Lemma publish_missing_dlhub_block_witness :
  DLHubClient.publish_servable sample_env blockless_model empty_world
  = (sample_staged_world, Raise (KeyError "dlhub")).
Proof.
  apply (publish_missing_dlhub_block sample_env blockless_model empty_world
           sample_staged_world [("datacite", VDict [])] sample_reference);
    vm_compute; reflexivity.
Defined.

(** X13. When the service answers the submission with a body that has no
    ['task_id'], [publish_servable] raises [KeyError('task_id')] although
    the request has been posted: the submission is out, the caller holds
    no task id. *)
Theorem publish_missing_task_id (E : env) (m : model) (w w1 : world)
    (md md' : value) (ref : string) (resp : response)
    (items : list (string * value)) :
  to_dict m true = Return md ->
  DLHubClient._stage_data E m w = (w1, Return (Some ref)) ->
  DLHubClient.set_transfer_method md ref w1 = (w1, Return md') ->
  schema_check E md' "servable" = None ->
  http_post E "publish" md' = Return resp ->
  data resp = VDict items ->
  assoc_get "task_id" items = None ->
  DLHubClient.publish_servable E m w
  = (log (Posted "publish" md') (log (Validated md' "servable") w1),
     Raise (KeyError "task_id")).
Proof.
  intros Hmd Hs Hset Hcheck Hpost Hdata Hid.
  rewrite (publish_after_staging E m w w1 md ref Hmd Hs).
  unfold submit, bind. rewrite Hset.
  unfold validate_against_dlhub_schema. rewrite Hcheck.
  unfold post. rewrite Hpost.
  unfold getitem. rewrite Hdata, Hid. reflexivity.
Qed.

Lemma publish_missing_task_id_witness :
  DLHubClient.publish_servable taskless_env sample_model empty_world
  = (log (Posted "publish" sample_staged_metadata)
       (log (Validated sample_staged_metadata "servable") sample_staged_world),
     Raise (KeyError "task_id")).
Proof.
  apply (publish_missing_task_id taskless_env sample_model empty_world
           sample_staged_world sample_metadata sample_staged_metadata
           sample_reference error_response [("error", VStr "servable failed")]);
    vm_compute; reflexivity.
Defined.

(** X14. After staging, [publish_servable] touches no local file: on every
    path the files it leaves are those [_stage_data] left, or the initial
    ones when serialization failed. *)
Theorem publish_files (E : env) (m : model) (w : world) :
  files (fst (DLHubClient.publish_servable E m w))
  = match to_dict m true with
    | Return _ => files (fst (DLHubClient._stage_data E m w))
    | Raise _ => files w
    end.
Proof.
  destruct (to_dict m true) as [md|e] eqn:Hmd.
  - destruct (DLHubClient._stage_data E m w) as [w1 o] eqn:Hs.
    destruct o as [[ref|]|e].
    + rewrite (publish_after_staging E m w w1 md ref Hmd Hs). apply submit_files.
    + unfold DLHubClient.publish_servable, bind, of_outcome.
      rewrite Hmd, Hs. reflexivity.
    + unfold DLHubClient.publish_servable, bind, of_outcome.
      rewrite Hmd, Hs. reflexivity.
  - unfold DLHubClient.publish_servable, bind, of_outcome. rewrite Hmd. reflexivity.
Qed.

(** ** Invocation, status and repositories *)



(** X16. What [run] sends.  In ['json'] mode the request carries the
    inputs untouched under the key ['data'], whatever the service answers.
    In ['python'] mode a value that cannot be pickled stops [run] before
    any request (the pickling error leaves [run], the world is unchanged),
    and a value that can be pickled is sent as the base64 text of its
    pickle under the key ['python']. *)
Theorem run_request_body (E : env) (author name : string) (inputs : value)
    (w : world) :
  events_since w (fst (DLHubClient.run E author name inputs "json" w))
  = [Posted (DLHubClient.servable_path author name) (VDict [("data", inputs)])]
  /\ match pkl_dumps E inputs with
     | Raise e =>
         DLHubClient.run E author name inputs "python" w = (w, Raise e)
     | Return pickled =>
         events_since w (fst (DLHubClient.run E author name inputs "python" w))
         = [Posted (DLHubClient.servable_path author name)
              (VDict [("python", VStr (base64_encode pickled))])]
     end.
Proof.
  unfold DLHubClient.run, DLHubClient.prepare_data, bind, ret, post, of_outcome.
  cbn [String.eqb Ascii.eqb Bool.eqb]. split.
  - destruct (http_post E (DLHubClient.servable_path author name) (VDict [("data", inputs)]))
      as [r|e]; [destruct (negb (http_status r =? 200)%Z)|];
      cbn [fst]; apply events_since_app; reflexivity.
  - destruct (pkl_dumps E inputs) as [pickled|e]; [|reflexivity].
    destruct (http_post E (DLHubClient.servable_path author name)
                (VDict [("python", VStr (base64_encode pickled))]))
      as [r|e]; [destruct (negb (http_status r =? 200)%Z)|];
      cbn [fst]; apply events_since_app; reflexivity.
Qed.

(** X17. An error raised by [post] itself (no response came back) leaves
    [run] unchanged, after the one request: [run] wraps only responses
    with a status other than 200. *)
Theorem run_transport_error (E : env) (author name : string) (inputs : value)
    (input_type : string) (w : world) (body : value) (e : exn) :
  DLHubClient.prepare_data E inputs input_type w = (w, Return body) ->
  http_post E (DLHubClient.servable_path author name) body = Raise e ->
  DLHubClient.run E author name inputs input_type w
  = (log (Posted (DLHubClient.servable_path author name) body) w, Raise e).
Proof.
  intros Hprep Hpost. unfold DLHubClient.run, bind. rewrite Hprep.
  unfold post. rewrite Hpost. reflexivity.
Qed.

Lemma run_transport_error_witness :
  DLHubClient.run interrupted_env "alice" "iris" (VInt 1) "json" empty_world
  = (log (Posted "servables/alice/iris/run" (VDict [("data", VInt 1)])) empty_world,
     Raise (Signal "KeyboardInterrupt")).
Proof.
  apply (run_transport_error interrupted_env "alice" "iris" (VInt 1) "json"
           empty_world (VDict [("data", VInt 1)]) (Signal "KeyboardInterrupt"));
    reflexivity.
Defined.

(** X18. [get_task_status] asks the service once, with a [get] of
    [<task_id>/status], and never returns a status.  An error of that
    request leaves the call as it is; when a response does arrive, the
    call [r.json()] raises [AttributeError], since the response has its
    body under [data] and no [json]; nothing is retried or posted. *)
Theorem get_task_status_single_query (E : env) (task_id : string) (w : world) :
  DLHubClient.get_task_status E task_id w
  = (log (Got (task_id ++ "/status")) w,
     match http_get E (task_id ++ "/status") with
     | Return r =>
         Raise (Failure "AttributeError"
                  "'GlobusHTTPResponse' object has no attribute 'json'")
     | Raise e => Raise e
     end)
  /\ events_since w (fst (DLHubClient.get_task_status E task_id w))
     = [Got (task_id ++ "/status")]
  /\ forall status, snd (DLHubClient.get_task_status E task_id w) <> Return status.
Proof.
  assert (H : DLHubClient.get_task_status E task_id w
              = (log (Got (task_id ++ "/status")) w,
                 match http_get E (task_id ++ "/status") with
                 | Return r =>
                     Raise (Failure "AttributeError"
                              "'GlobusHTTPResponse' object has no attribute 'json'")
                 | Raise e => Raise e
                 end)).
  { unfold DLHubClient.get_task_status, DLHubClient.response_json, bind, get, raise.
    destruct (http_get E (task_id ++ "/status")); reflexivity. }
  split; [exact H|]. rewrite H. split.
  - apply events_since_app. reflexivity.
  - intros status. cbn [snd].
    destruct (http_get E (task_id ++ "/status")); discriminate.
Qed.

(** X19. [publish_repository] neither stages nor validates: on every path
    its only event is one [post] of [{'repository': <repository>}] to
    ['publish_repo'], and the local files are untouched.  It returns the
    ['task_id'] of the answer and raises [KeyError('task_id')] when the
    answer is a dictionary without one. *)
Theorem publish_repository_single_post (E : env) (repository : string) (w : world) :
  let body := VDict [("repository", VStr repository)] in
  let w' := fst (DLHubClient.publish_repository E repository w) in
  files w' = files w
  /\ events_since w w' = [Posted "publish_repo" body]
  /\ (forall resp items,
        http_post E "publish_repo" body = Return resp ->
        data resp = VDict items ->
        snd (DLHubClient.publish_repository E repository w)
        = match assoc_get "task_id" items with
          | Some task_id => Return task_id
          | None => Raise (KeyError "task_id")
          end).
Proof.
  cbv zeta. unfold DLHubClient.publish_repository, bind, post.
  destruct (http_post E "publish_repo" (VDict [("repository", VStr repository)]))
    as [resp|e] eqn:Hpost.
  - destruct (getitem_pure (data resp) "task_id"
                (log (Posted "publish_repo" (VDict [("repository", VStr repository)])) w))
      as [o Hget].
    rewrite Hget.
    assert (Hfst : forall o' : outcome value,
               fst (match o with
                    | Return a => ret a (log (Posted "publish_repo" (VDict [("repository", VStr repository)])) w)
                    | Raise e => (log (Posted "publish_repo" (VDict [("repository", VStr repository)])) w, Raise e)
                    end)
               = log (Posted "publish_repo" (VDict [("repository", VStr repository)])) w)
      by (intros _; destruct o; reflexivity).
    rewrite (Hfst o). split; [reflexivity|]. split.
    + apply events_since_app. reflexivity.
    + intros resp' items Hresp Hdata. injection Hresp as <-.
      unfold getitem in Hget. rewrite Hdata in Hget.
      destruct (assoc_get "task_id" items); unfold ret, raise in Hget;
        injection Hget as <-; reflexivity.
  - cbn [fst]. split; [reflexivity|]. split.
    + apply events_since_app. reflexivity.
    + intros resp items Hresp. discriminate.
Qed.

Lemma publish_repository_single_post_witness :
  snd (DLHubClient.publish_repository sample_env "https://github.com/alice/iris" empty_world)
  = Return (VStr "bf06d72e-0478-11e9-97fc-0a4dfa7e8a3e")
  /\ snd (DLHubClient.publish_repository taskless_env "https://github.com/alice/iris"
            empty_world)
     = Raise (KeyError "task_id").
Proof.
  split.
  - exact (proj2 (proj2 (publish_repository_single_post sample_env
                           "https://github.com/alice/iris" empty_world))
             sample_response _ eq_refl eq_refl).
  - exact (proj2 (proj2 (publish_repository_single_post taskless_env
                           "https://github.com/alice/iris" empty_world))
             error_response _ eq_refl eq_refl).
Defined.

(** ** The ['python'] payload can be read back *)

Lemma b64_value_char (n : N) : (n < 64)%N -> b64_value (b64_char n) = n.
Proof.
  intros Hn.
  assert (Hall : forallb (fun k => N.eqb (b64_value (b64_char k)) k)
                   (map N.of_nat (seq 0 64)) = true) by (vm_compute; reflexivity).
  rewrite forallb_forall in Hall.
  apply N.eqb_eq, Hall, in_map_iff.
  exists (N.to_nat n). split; [lia|]. apply in_seq. lia.
Qed.

Lemma b64_char_not_padding (n : N) : (n < 64)%N -> is_padding (b64_char n) = false.
Proof.
  intros Hn.
  assert (Hall : forallb (fun k => negb (is_padding (b64_char k)))
                   (map N.of_nat (seq 0 64)) = true) by (vm_compute; reflexivity).
  rewrite forallb_forall in Hall.
  apply negb_true_iff, Hall, in_map_iff.
  exists (N.to_nat n). split; [lia|]. apply in_seq. lia.
Qed.

Lemma b64_char_not_newline (n : N) : (n < 64)%N -> is_newline (b64_char n) = false.
Proof.
  intros Hn.
  assert (Hall : forallb (fun k => negb (is_newline (b64_char k)))
                   (map N.of_nat (seq 0 64)) = true) by (vm_compute; reflexivity).
  rewrite forallb_forall in Hall.
  apply negb_true_iff, Hall, in_map_iff.
  exists (N.to_nat n). split; [lia|]. apply in_seq. lia.
Qed.

Lemma append_cons (c : ascii) (s t : string) : String c s ++ t = String c (s ++ t).
Proof. reflexivity. Qed.

Lemma base64_decode_quad (a b c d : ascii) (rest : string) :
  is_newline a = false ->
  base64_decode (String a (String b (String c (String d rest))))
  = (decode_quad a b c d ++ base64_decode rest)%list.
Proof. intros H. cbn [base64_decode]. rewrite H. reflexivity. Qed.

Ltac b64_arith := zify; Z.to_euclidean_division_equations; lia.

(** One group of four characters gives back the bytes it encodes,
    padded or not. *)
Lemma base64_decode_groups (n : nat) :
  forall (l : list Byte.byte) (rest : string),
    length l <= n ->
    base64_decode (b64_groups l ++ rest)
    = (map Byte.to_N l ++ base64_decode rest)%list.
Proof.
  induction n as [|n IH]; intros l rest Hlen.
  - destruct l; [reflexivity | cbn in Hlen; lia].
  - destruct l as [|a [|b [|c l]]]; [reflexivity| | |].
    + pose proof (Byte.to_N_bounded a) as Ha.
      change (b64_groups [a])
        with (String (b64_char (Byte.to_N a / 4))
                (String (b64_char ((Byte.to_N a mod 4) * 16)) "==")).
      cbn [map]. clear Hlen. generalize dependent (Byte.to_N a). intros x Hx.
      rewrite !append_cons.
      rewrite base64_decode_quad by (apply b64_char_not_newline; b64_arith).
      unfold decode_quad. cbn [is_padding Ascii.eqb Bool.eqb].
      rewrite !b64_value_char by b64_arith.
      cbn [app]. f_equal. b64_arith.
    + pose proof (Byte.to_N_bounded a) as Ha.
      pose proof (Byte.to_N_bounded b) as Hb.
      change (b64_groups [a; b])
        with (String (b64_char (Byte.to_N a / 4))
                (String (b64_char ((Byte.to_N a mod 4) * 16 + Byte.to_N b / 16))
                   (String (b64_char ((Byte.to_N b mod 16) * 4)) "="))).
      cbn [map]. clear Hlen.
      generalize dependent (Byte.to_N b). intros y Hy.
      generalize dependent (Byte.to_N a). intros x Hx.
      rewrite !append_cons.
      rewrite base64_decode_quad by (apply b64_char_not_newline; b64_arith).
      unfold decode_quad.
      rewrite (b64_char_not_padding (y mod 16 * 4)) by b64_arith.
      cbn [is_padding Ascii.eqb Bool.eqb].
      rewrite !b64_value_char by b64_arith.
      cbn [app]. f_equal; [|f_equal]; b64_arith.
    + pose proof (Byte.to_N_bounded a) as Ha.
      pose proof (Byte.to_N_bounded b) as Hb.
      pose proof (Byte.to_N_bounded c) as Hc.
      change (b64_groups (a :: b :: c :: l))
        with (String (b64_char (Byte.to_N a / 4))
                (String (b64_char ((Byte.to_N a mod 4) * 16 + Byte.to_N b / 16))
                   (String (b64_char ((Byte.to_N b mod 16) * 4 + Byte.to_N c / 64))
                      (String (b64_char (Byte.to_N c mod 64)) (b64_groups l))))).
      cbn [map].
      assert (Hl : length l <= n) by (cbn [length] in Hlen; lia).
      specialize (IH l rest Hl). clear Hlen Hl.
      generalize dependent (Byte.to_N c). intros z Hz.
      generalize dependent (Byte.to_N b). intros y Hy.
      generalize dependent (Byte.to_N a). intros x Hx.
      rewrite !append_cons.
      rewrite base64_decode_quad by (apply b64_char_not_newline; b64_arith).
      unfold decode_quad.
      rewrite (b64_char_not_padding (y mod 16 * 4 + z / 64)) by b64_arith.
      rewrite (b64_char_not_padding (z mod 64)) by b64_arith.
      rewrite !b64_value_char by b64_arith.
      rewrite IH. cbn [app]. f_equal; [|f_equal; [|f_equal]]; b64_arith.
Qed.

Lemma base64_decode_lines (fuel : nat) :
  forall bs : list Byte.byte,
    length bs <= fuel ->
    base64_decode (encode_lines fuel bs) = map Byte.to_N bs.
Proof.
  induction fuel as [|k IH]; intros bs Hlen.
  - destruct bs; [reflexivity | cbn in Hlen; lia].
  - destruct bs as [|b bs]; [reflexivity|].
    cbn [encode_lines].
    rewrite (base64_decode_groups 57) by (rewrite length_take; lia).
    change (newline ++ encode_lines k (drop 57 (b :: bs)))
      with (String (ascii_of_nat 10) (encode_lines k (drop 57 (b :: bs)))).
    cbn [base64_decode].
    change (is_newline (ascii_of_nat 10)) with true. cbv iota.
    rewrite IH by (rewrite length_drop; cbn [length] in *; lia).
    rewrite <- map_app, take_drop. reflexivity.
Qed.

(** Decoding the encoded text gives the bytes back. *)
Lemma base64_encode_decode (bs : list Byte.byte) :
  base64_decode (base64_encode bs) = map Byte.to_N bs.
Proof. apply base64_decode_lines. reflexivity. Qed.

(** X20. The text [run] sends in ['python'] mode determines the pickle:
    two byte strings with the same base64 text, line breaks included, are
    the same byte string, so nothing of the pickled inputs is lost. *)
Theorem base64_encode_injective (bs bs' : list Byte.byte) :
  base64_encode bs = base64_encode bs' -> bs = bs'.
Proof.
  intros H. apply (f_equal base64_decode) in H.
  rewrite !base64_encode_decode in H.
  revert bs' H. induction bs as [|b bs IH]; intros [|b' bs'] H; try discriminate.
  - reflexivity.
  - cbn [map] in H. injection H as Hb Hbs.
    f_equal; [|apply IH, Hbs].
    pose proof (Byte.of_to_N b) as H1. pose proof (Byte.of_to_N b') as H2.
    congruence.
Qed.

Lemma base64_encode_injective_witness :
  [Byte.x80; Byte.x03; Byte.x4b; Byte.x01; Byte.x2e]
  = [Byte.x80; Byte.x03; Byte.x4b; Byte.x01; Byte.x2e].
Proof.
  apply (base64_encode_injective
           [Byte.x80; Byte.x03; Byte.x4b; Byte.x01; Byte.x2e]
           [Byte.x80; Byte.x03; Byte.x4b; Byte.x01; Byte.x2e]).
  reflexivity.
Defined.

(** ** Logging in *)

(** X21. [login] runs the login procedure exactly when [force] is set or
    no credentials are saved, and at most once; with [force] set it does
    not even look for saved credentials.  The authorizer is made exactly
    when the login procedure was not needed or raised nothing, and a
    client that comes back carries that authorizer, the given timeout and
    the service address. *)
Theorem login_policy (A : Login.auth) (force : bool) (http_timeout : option Z) :
  let evs := fst (Login.login A force http_timeout []) in
  let r := snd (Login.login A force http_timeout []) in
  (In Login.RanLoginFlow evs <-> force = true \/ Login.check_logged_in A = false)
  /\ (In Login.CheckedLoggedIn evs <-> force = false)
  /\ (In Login.MadeAuthorizer evs
      <-> (force = false /\ Login.check_logged_in A = true)
          \/ Login.do_login_flow A = None)
  /\ length (List.filter (fun ev => match ev with Login.RanLoginFlow => true | _ => false end) evs) <= 1
  /\ (forall c,
        r = Return c ->
        exists a,
          Login.make_authorizer A = Return a
          /\ c = {| Login.name := "DLHub";
                    Login.environment := "dlhub";
                    Login.authorizer := a;
                    Login.http_timeout := http_timeout;
                    Login.base_url := Login.DLHUB_SERVICE_ADDRESS A |}).
Proof.
  cbv zeta.
  unfold Login.login, Login.io_bind, Login.io_ret, Login.call_check_logged_in,
    Login.call_do_login_flow, Login.call_make_authorizer, Login.__init__.
  destruct force, (Login.check_logged_in A) eqn:Hc, (Login.do_login_flow A) eqn:Hf,
    (Login.make_authorizer A) eqn:Hm;
    cbn [fst snd app negb List.filter length In];
    repeat split; intros; try lia; try discriminate;
    repeat match goal with
           | H : _ \/ _ |- _ => destruct H
           | H : _ /\ _ |- _ => destruct H
           | H : False |- _ => destruct H
           end;
    try discriminate; try congruence; eauto 6;
    match goal with
    | H : Return _ = Return ?c |- exists _, _ /\ ?c = _ =>
        injection H as <-; eexists; split; reflexivity
    end.
Qed.

Lemma login_policy_witness :
  fst (Login.login
         {| Login.check_logged_in := true;
            Login.do_login_flow := None;
            Login.make_authorizer := Return "RefreshTokenAuthorizer";
            Login.DLHUB_SERVICE_ADDRESS := "https://dlhub.example/api/v1" |}
         false (Some 30%Z) [])
  = [Login.CheckedLoggedIn; Login.MadeAuthorizer]
  /\ exists a,
       Return a = Return "RefreshTokenAuthorizer".
Proof.
  split; [reflexivity|].
  destruct (proj2 (proj2 (proj2 (proj2
              (login_policy
                 {| Login.check_logged_in := true;
                    Login.do_login_flow := None;
                    Login.make_authorizer := Return "RefreshTokenAuthorizer";
                    Login.DLHUB_SERVICE_ADDRESS := "https://dlhub.example/api/v1" |}
                 false (Some 30%Z))))) _ eq_refl) as (a & Ha & _).
  exists a. symmetry. exact Ha.
Defined.
